(** * Invoice extraction and generator API: field normalisation and rendering

    A shallow embedding of [app/main.py]: the field normaliser
    [serialize_field] nested in [analyze_invoice], the merge of the content
    blocks and the exception handlers of [analyze_invoice], [generate_pdf]
    with its pure steps (envelope unwrap, currency derivation, file name
    derivation) and its two collaborators as parameters, the start-up check
    and [verify_api_key]; and of the file name step of [client.py].

    Python values are an inductive type, exceptions are explicit results. *)

From Stdlib Require Import List String Ascii ZArith Bool Lia.
From Stdlib Require Import DecimalString.
Import ListNotations.
Local Open Scope list_scope.
Local Open Scope string_scope.

(** ** Python values *)

Module Py.

(** The value of an attribute of a typed SDK field object.  The normaliser
    looks at such a value in three ways only: [is not None],
    [isinstance(val, (str, int, float, bool))] and [str(val)].  Any value
    that is neither [None] nor one of the four primitive types (a
    [datetime.date], a list, a nested object, ...) is therefore represented
    by the text [str()] gives for it. *)
Inductive attrval : Type :=
| ANone
| AStr (s : string)
| AInt (z : Z)
| AFloat (bits : Z)
| ABool (b : bool)
| AOther (str_ : string).

(** Python values.  A [float] is its IEEE-754 binary64 bit pattern: the
    program never computes with floats, it only passes them on.  A [str] is
    kept as its UTF-8 encoding, a lone surrogate as the three bytes its code
    point would take.  An [int] is within the interpreter's limit for the
    conversion to decimal text, as every integer parsed from JSON is.
    [PDict] is a
    [dict] or a dict-like (MutableMapping) SDK object with string keys, its
    entries in insertion order.  [PObj] is an object that offers attributes
    but neither [get], nor [in], nor subscripting, nor iteration: the typed
    field classes of the SDK; an attribute that is not listed does not
    exist. *)
#[warnings="-register-all"]
Inductive pyval : Type :=
| PNone
| PBool (b : bool)
| PInt (z : Z)
| PFloat (bits : Z)
| PStr (s : string)
| PList (items : list pyval)
| PDict (entries : list (string * pyval))
| PObj (attrs : list (string * attrval)).

Definition dict : Type := list (string * pyval).

(** Exceptions.  The built-in ones are kept by class; [HttpResponseError] is
    the error of [azure.core.exceptions], whose [status_code] is [None] when
    no HTTP response is attached to it. *)
Inductive exn : Type :=
| AttributeError
| TypeError
| KeyError
| ValueError
| UnicodeEncodeError
| HttpResponseError (status_code : option Z) (message : string)
| OtherException (str_ : string).

Inductive result (A : Type) : Type :=
| Ok (a : A)
| Raise (e : exn).
Arguments Ok {A} a.
Arguments Raise {A} e.

Definition bind {A B} (m : result A) (k : A -> result B) : result B :=
  match m with
  | Ok a => k a
  | Raise e => Raise e
  end.

Notation "x <- m ;; k" := (bind m (fun x => k))
  (at level 61, m at next level, right associativity).

(** [[f(x) for x in l]]: left to right, the first exception ends the loop. *)
Definition mapM {A B} (f : A -> result B) : list A -> result (list B) :=
  fix go (l : list A) : result (list B) :=
    match l with
    | [] => Ok []
    | x :: l' => y <- f x ;; ys <- go l' ;; Ok (y :: ys)
    end.

(** *** Dictionaries *)

(** [key in d] and [d[key]] in one: [Some v] when the key is present. *)
Fixpoint dict_get (key : string) (d : dict) : option pyval :=
  match d with
  | [] => None
  | (k, v) :: d' => if String.eqb k key then Some v else dict_get key d'
  end.

Definition dict_has (key : string) (d : dict) : bool :=
  match dict_get key d with Some _ => true | None => false end.

(** [d[key] = v]: an existing key keeps its place, a new one goes last. *)
Fixpoint dict_set (key : string) (v : pyval) (d : dict) : dict :=
  match d with
  | [] => [(key, v)]
  | (k, w) :: d' =>
      if String.eqb k key then (k, v) :: d' else (k, w) :: dict_set key v d'
  end.

(** The dict a comprehension [{k: v for ...}] builds from its pairs. *)
Definition dict_of_items (items : list (string * pyval)) : dict :=
  fold_left (fun acc kv => dict_set (fst kv) (snd kv) acc) items [].

(** [if key in d: body(d[key]) else: orelse], with the body applied to the
    stored value itself. *)
Definition dict_case {A} (key : string) (body : pyval -> A) (orelse : A)
  : dict -> A :=
  fix go (d : dict) : A :=
    match d with
    | [] => orelse
    | (k, v) :: d' => if String.eqb k key then body v else go d'
    end.

(** [v.items()]: only mappings have it. *)
Definition py_items (v : pyval) : result (list (string * pyval)) :=
  match v with
  | PDict d => Ok d
  | _ => Raise AttributeError
  end.

(** *** Strings *)

(** The bytes 0x80..0xBF continue a character of the UTF-8 encoding. *)
Definition is_continuation_byte (c : ascii) : bool :=
  Nat.leb 128 (nat_of_ascii c) && Nat.ltb (nat_of_ascii c) 192.

Definition starts_with_continuation (s : string) : bool :=
  match s with
  | String c _ => is_continuation_byte c
  | "" => false
  end.

(** The characters of a string, each as a string of its own: a byte and the
    continuation bytes that follow it. *)
Fixpoint str_chars (s : string) : list string :=
  match s with
  | "" => []
  | String c s' =>
      match str_chars s' with
      | x :: xs =>
          if starts_with_continuation s' then String c x :: xs
          else String c "" :: x :: xs
      | [] => [String c ""]
      end
  end.

(** [s.encode("latin-1")] does not raise: every character is at most
    U+00FF, that is, no byte of the encoding is 0xC4 or more (the lead byte
    of a character from U+0100 on). *)
Definition latin1_encodable (s : string) : bool :=
  forallb (fun c => Nat.ltb (nat_of_ascii c) 196) (list_ascii_of_string s).

(** The string has a lone surrogate: the byte 0xED followed by 0xA0 or
    more.  [s.encode("utf-8")] raises on exactly these strings. *)
Fixpoint has_surrogate (s : string) : bool :=
  match s with
  | "" => false
  | String c s' =>
      match s' with
      | String c' _ =>
          Nat.eqb (nat_of_ascii c) 237 && Nat.leb 160 (nat_of_ascii c')
          || has_surrogate s'
      | "" => false
      end
  end.

(** A float is finite unless its eleven exponent bits are all set. *)
Definition float_is_finite (bits : Z) : bool :=
  negb (Z.land (Z.shiftr bits 52) 2047 =? 2047)%Z.

(** What [for item in v] visits: the items of a list, the one-character
    strings of a string, the keys of a mapping; nothing else iterates. *)
Definition py_iter (v : pyval) : result (list pyval) :=
  match v with
  | PList l => Ok l
  | PStr s => Ok (map (fun x => PStr x) (str_chars s))
  | PDict d => Ok (map (fun kv => PStr (fst kv)) d)
  | _ => Raise TypeError
  end.

(** [getattr(obj, name, None)] on a typed field object. *)
Fixpoint getattr (name : string) (attrs : list (string * attrval)) : attrval :=
  match attrs with
  | [] => ANone
  | (a, v) :: attrs' => if String.eqb a name then v else getattr name attrs'
  end.

End Py.
Import Py.

(** ** The field normaliser *)

Definition value_keys : list string :=
  ["valueString"; "valueNumber"; "valueDate"].

Definition value_attrs : list string :=
  ["value_string"; "value_number"; "value_date"; "value"].

(** [for value_key in keys: if value_key in field: return field[value_key]] *)
Fixpoint probe_keys (keys : list string) (field : dict) : option pyval :=
  match keys with
  | [] => None
  | value_key :: keys' =>
      match dict_get value_key field with
      | Some v => Some v
      | None => probe_keys keys' field
      end
  end.

(** The fallback loop over the attributes of a typed field object. *)
Fixpoint probe_attrs (names : list string) (attrs : list (string * attrval))
  : pyval :=
  match names with
  | [] => PNone
  | attr :: names' =>
      match getattr attr attrs with
      | ANone => probe_attrs names' attrs
      | AStr s => PStr s
      | AInt z => PInt z
      | AFloat x => PFloat x
      | ABool b => PBool b
      | AOther s => PStr s
      end
  end.

(** [serialize_field].  The two lookups [field["valueObject"]] and
    [field["valueArray"]] are written with [dict_case], so that the
    recursive calls are on parts of [field].  A string or a mapping under
    [valueArray] is iterated too: its items are strings, for which the
    function answers [None] (they have no [get] and none of the probed
    attributes), hence a list of as many [None]; see
    [serialize_field_array_value] for the loop as the source has it.  A typed
    object goes to the attribute fallback, as does any built-in value that
    is not a mapping, and none of those has one of the attributes. *)
Fixpoint serialize_field (field : pyval) : result pyval :=
  match field with
  | PNone => Ok PNone
  | PDict d =>
      match probe_keys value_keys d with
      | Some v => Ok v
      | None =>
          dict_case "valueObject"
            (fun obj =>
               match obj with
               | PDict members =>
                   items <- mapM (fun kv : string * pyval =>
                                    let (k, v) := kv in
                                    v' <- serialize_field v ;; Ok (k, v'))
                                 members ;;
                   Ok (PDict (dict_of_items items))
               | _ => Raise AttributeError
               end)
            (dict_case "valueArray"
               (fun arr =>
                  match arr with
                  | PList items =>
                      items' <- mapM serialize_field items ;;
                      Ok (PList items')
                  | PStr s =>
                      Ok (PList (repeat PNone (List.length (str_chars s))))
                  | PDict m => Ok (PList (repeat PNone (List.length m)))
                  | _ => Raise TypeError
                  end)
               (Ok PNone)
               d)
            d
      end
  | PObj attrs => Ok (probe_attrs value_attrs attrs)
  | PBool _ | PInt _ | PFloat _ | PStr _ | PList _ => Ok PNone
  end.

(** ** [analyze_invoice] *)

(** [HTTPException(status_code=..., detail=f"<prefix>{<text of the cause>}")].
    The detail is kept as its literal prefix and the exception it quotes. *)
Record HTTPException : Type := {
  status_code : option Z;
  detail_prefix : string;
  cause : exn
}.

(** The loop that fills [extracted_data] from the fields of one content
    block: [extracted_data[field_name] = serialize_field(field_value)]. *)
Fixpoint extract_fields (fields : dict) (extracted_data : dict) : result dict :=
  match fields with
  | [] => Ok extracted_data
  | (field_name, field_value) :: fields' =>
      v <- serialize_field field_value ;;
      extract_fields fields' (dict_set field_name v extracted_data)
  end.

(** The loop over [result.contents]; a block is [None] when it has no
    [fields] attribute, and an empty [fields] mapping is skipped as falsy. *)
Fixpoint extract_contents (contents : list (option dict))
  (extracted_data : dict) : result dict :=
  match contents with
  | [] => Ok extracted_data
  | None :: contents' => extract_contents contents' extracted_data
  | Some fields :: contents' =>
      extracted_data' <- extract_fields fields extracted_data ;;
      extract_contents contents' extracted_data'
  end.

(** [json.dumps(v, allow_nan=False)] as far as it can fail: the values are
    visited in order, an object that is none of the JSON types raises
    [TypeError], a float that is not finite raises [ValueError]. *)
Fixpoint json_dumps (v : pyval) : result unit :=
  match v with
  | PNone | PBool _ | PInt _ | PStr _ => Ok tt
  | PFloat bits => if float_is_finite bits then Ok tt else Raise ValueError
  | PList l => _ <- mapM json_dumps l ;; Ok tt
  | PDict d => _ <- mapM (fun kv => json_dumps (snd kv)) d ;; Ok tt
  | PObj _ => Raise TypeError
  end.

(** No key and no string of the value has a lone surrogate. *)
Fixpoint utf8_encodable (v : pyval) : bool :=
  match v with
  | PStr s => negb (has_surrogate s)
  | PList l => forallb utf8_encodable l
  | PDict d =>
      forallb (fun kv => negb (has_surrogate (fst kv))
                         && utf8_encodable (snd kv)) d
  | _ => true
  end.

(** [JSONResponse(content=...)]: the body is rendered when the response is
    built, as [json.dumps(content, ensure_ascii=False, allow_nan=False,
    ...).encode("utf-8")]; the result is the content that was encoded. *)
Definition JSONResponse (content : pyval) : result pyval :=
  _ <- json_dumps content ;;
  if utf8_encodable content then Ok content else Raise UnicodeEncodeError.

(** [analyze_invoice], from the outcome of the extraction collaborator
    ([client.begin_analyze_binary] and [poller.result]) on: [outcome] is the
    list of content blocks or the exception the collaborator raised, [raw]
    is what [result.as_dict()] (or [str(result)]) gives.  The two [except]
    clauses are the two branches under [Raise]; they also catch what the
    normaliser and [JSONResponse] raise.  On success the result is the
    content of the response. *)
Definition analyze_invoice (outcome : result (list (option dict))) (raw : pyval)
  : HTTPException + pyval :=
  match (contents <- outcome ;;
         extracted_data <- extract_contents contents [] ;;
         JSONResponse (PDict [("status", PStr "success");
                              ("data", PDict extracted_data);
                              ("raw_result", raw)])) with
  | Ok body => inr body
  | Raise (HttpResponseError sc msg) =>
      inl {| status_code := sc;
             detail_prefix := "Azure Error: ";
             cause := HttpResponseError sc msg |}
  | Raise e =>
      inl {| status_code := Some 500%Z;
             detail_prefix := "Server Error: ";
             cause := e |}
  end.

(** ** [generate_pdf] *)

(** The values [generate_pdf] works on are parsed from a JSON request body:
    every [PDict] below is a genuine [dict]. *)

(** [key in v] for a string key. *)
Definition py_contains (key : string) (v : pyval) : result bool :=
  match v with
  | PDict d => Ok (dict_has key d)
  | PStr s => Ok (match index 0 key s with Some _ => true | None => false end)
  | PList l =>
      Ok (existsb (fun x => match x with
                            | PStr s => String.eqb s key
                            | _ => false
                            end) l)
  | PNone | PBool _ | PInt _ | PFloat _ | PObj _ => Raise TypeError
  end.

(** [v[key]] for a string key. *)
Definition py_getitem (v : pyval) (key : string) : result pyval :=
  match v with
  | PDict d =>
      match dict_get key d with
      | Some x => Ok x
      | None => Raise KeyError
      end
  | _ => Raise TypeError
  end.

(** [v.get(key, default)]; only mappings have a [get]. *)
Definition py_get (v : pyval) (key : string) (default : pyval) : result pyval :=
  match v with
  | PDict d =>
      Ok (match dict_get key d with Some x => x | None => default end)
  | _ => Raise AttributeError
  end.

(** Step 0, the auto-unwrap:
    [if "data" in invoice_data and "status" in invoice_data:
         invoice_data = invoice_data["data"]]. *)
Definition unwrap (invoice_data : pyval) : result pyval :=
  has_data <- py_contains "data" invoice_data ;;
  if (has_data : bool) then
    has_status <- py_contains "status" invoice_data ;;
    if (has_status : bool) then py_getitem invoice_data "data"
    else Ok invoice_data
  else Ok invoice_data.

(** Step 1, the currency. *)
Definition derive_currency (invoice_data : pyval) : result pyval :=
  total_amount <- py_get invoice_data "TotalAmount" PNone ;;
  match total_amount with
  | PDict _ => py_get total_amount "CurrencyCode" (PStr "")
  | _ => Ok (PStr "")
  end.

Record Response : Type := {
  content : list Byte.byte;
  media_type : string;
  filename : string
}.

(** [Response(content=pdf_bytes, media_type="application/pdf",
    headers={"Content-Disposition": f'attachment; filename="{filename}"'})]:
    the headers are encoded as latin-1 when the response is built, which
    raises [UnicodeEncodeError] when the file name has a character above
    U+00FF (the rest of the header is ASCII). *)
Definition attachment_response (pdf_bytes : list Byte.byte) (name : string)
  : result Response :=
  if latin1_encodable name then
    Ok {| content := pdf_bytes;
          media_type := "application/pdf";
          filename := name |}
  else Raise UnicodeEncodeError.

Section Rendering.

(** [repr()] of a float, a list, a dict or an object, as [str()] and an
    f-string use it.  The program leaves it to the interpreter. *)
Variable py_repr : pyval -> string.

(** [str(v)], which is what [f"{v}"] inserts. *)
Definition py_str (v : pyval) : string :=
  match v with
  | PNone => "None"
  | PBool true => "True"
  | PBool false => "False"
  | PInt z => NilZero.string_of_int (Z.to_int z)
  | PStr s => s
  | PFloat _ | PList _ | PDict _ | PObj _ => py_repr v
  end.

(** Step 4, the file name. *)
Definition derive_filename (invoice_data : pyval) : result string :=
  invoice_id <- py_get invoice_data "InvoiceId" (PStr "invoice") ;;
  Ok ("invoice_" ++ py_str invoice_id ++ ".pdf").

(** The two collaborators.  [get_template] is [env.get_template]: it raises
    or gives the template, a function of the derived currency and the
    document fields.  [html_to_pdf] is the headless browser session. *)
Variable get_template : result (pyval -> dict -> result string).
Variable html_to_pdf : string -> result (list Byte.byte).

(** [template.render(currency=currency, **invoice_data)]: the call itself
    raises [TypeError] when the spread is not a mapping or repeats the
    keyword [currency]. *)
Definition render_html (template : pyval -> dict -> result string)
  (currency : pyval) (invoice_data : pyval) : result string :=
  match invoice_data with
  | PDict d =>
      if dict_has "currency" d then Raise TypeError
      else template currency d
  | _ => Raise TypeError
  end.

Definition generate_pdf (invoice_data : dict) : HTTPException + Response :=
  match (doc <- unwrap (PDict invoice_data) ;;
         currency <- derive_currency doc ;;
         template <- get_template ;;
         rendered_html <- render_html template currency doc ;;
         pdf_bytes <- html_to_pdf rendered_html ;;
         name <- derive_filename doc ;;
         attachment_response pdf_bytes name) with
  | Ok response => inr response
  | Raise e =>
      inl {| status_code := Some 500%Z;
             detail_prefix := "PDF generation failed: ";
             cause := e |}
  end.

End Rendering.

(** ** Shapes of values *)

(** The canonical JSON values of the specification: null, string, number,
    string-keyed mapping, ordered sequence. *)
Fixpoint canonical (v : pyval) : bool :=
  match v with
  | PNone | PStr _ | PInt _ | PFloat _ => true
  | PList l => forallb canonical l
  | PDict d => forallb (fun kv => canonical (snd kv)) d
  | PBool _ | PObj _ => false
  end.

(** The values [json.dumps] accepts: the canonical ones and the booleans. *)
Fixpoint json_value (v : pyval) : bool :=
  match v with
  | PNone | PStr _ | PInt _ | PFloat _ | PBool _ => true
  | PList l => forallb json_value l
  | PDict d => forallb (fun kv => json_value (snd kv)) d
  | PObj _ => false
  end.

(** Every value the normaliser would hand back unchanged from a
    [valueString], [valueNumber] or [valueDate] key is a JSON value.  The
    predicate follows the traversal of [serialize_field]. *)
Fixpoint json_leaves (field : pyval) : bool :=
  match field with
  | PDict d =>
      match probe_keys value_keys d with
      | Some v => json_value v
      | None =>
          dict_case "valueObject"
            (fun obj =>
               match obj with
               | PDict members =>
                   forallb (fun kv => json_leaves (snd kv)) members
               | _ => true
               end)
            (dict_case "valueArray"
               (fun arr =>
                  match arr with
                  | PList items => forallb json_leaves items
                  | _ => true
                  end)
               true d)
            d
      end
  | _ => true
  end.

(** Wherever the traversal reaches an object value it is a mapping, and
    wherever it reaches an array value it can be iterated (a list, a string
    or a mapping). *)
Fixpoint normalizable (field : pyval) : bool :=
  match field with
  | PDict d =>
      match probe_keys value_keys d with
      | Some _ => true
      | None =>
          dict_case "valueObject"
            (fun obj =>
               match obj with
               | PDict members =>
                   forallb (fun kv => normalizable (snd kv)) members
               | _ => false
               end)
            (dict_case "valueArray"
               (fun arr =>
                  match arr with
                  | PList items => forallb normalizable items
                  | PStr _ | PDict _ => true
                  | _ => false
                  end)
               true d)
            d
      end
  | _ => true
  end.

Definition recognized_keys : list string :=
  value_keys ++ ["valueObject"; "valueArray"].

(** No recognised value key (dict-like field) or value attribute (typed
    object) is present; built-in values have neither. *)
Definition no_value (field : pyval) : bool :=
  match field with
  | PDict d => forallb (fun k => negb (dict_has k d)) recognized_keys
  | PObj attrs =>
      forallb (fun a => match getattr a attrs with
                        | ANone => true
                        | _ => false
                        end) value_attrs
  | _ => true
  end.

(** None of the three primitive-value keys is present. *)
Definition no_primitive_value (d : dict) : bool :=
  forallb (fun k => negb (dict_has k d)) value_keys.

(** The mapping looks like a full [/analyze-invoice] response. *)
Definition is_envelope (d : dict) : bool :=
  dict_has "data" d && dict_has "status" d.

(** At most one envelope: a bare document, or an envelope whose [data] is a
    mapping that is not an envelope in its turn. *)
Definition single_envelope (d : dict) : bool :=
  if is_envelope d then
    match dict_get "data" d with
    | Some (PDict m) => negb (is_envelope m)
    | _ => false
    end
  else true.

Fixpoint pysize (v : pyval) : nat :=
  match v with
  | PList l => S (list_sum (map pysize l))
  | PDict d => S (list_sum (map (fun kv => pysize (snd kv)) d))
  | _ => 1
  end.

(** ** The rest of the service and the client *)

(** [not s] for what [os.getenv] gives: unset or empty. *)
Definition falsy (s : option string) : bool :=
  match s with
  | None => true
  | Some "" => true
  | Some _ => false
  end.

(** The check at import time:
    [if not AI_ENDPOINT or not AI_KEY: raise ValueError(...)]; the
    [ValueError] is kept by its text. *)
Definition check_configuration (AI_ENDPOINT AI_KEY : option string)
  : result unit :=
  if falsy AI_ENDPOINT || falsy AI_KEY then
    Raise (OtherException
             "AZURE_AI_ENDPOINT and AZURE_AI_KEY must be set in the .env file")
  else Ok tt.

(** [a == b] on optional strings. *)
Definition opt_string_eqb (a b : option string) : bool :=
  match a, b with
  | None, None => true
  | Some x, Some y => String.eqb x y
  | _, _ => false
  end.

(** [verify_api_key]: [api_key] is the [X-API-Key] header, [None] when the
    request has none.  The result is [None] when the dependency passes and
    the status and detail of the [HTTPException] it raises otherwise. *)
Definition verify_api_key (AI_KEY api_key : option string)
  : option (Z * string) :=
  if opt_string_eqb api_key AI_KEY then None
  else Some (401%Z, "Unauthorized").

(** The name the client saves the PDF under ([client.py], step 4):
    [invoice_id = result.get("data", {}).get("InvoiceId", "invoice")] and
    [output_file = f"invoice_{invoice_id}.pdf"], where [analysis] is the
    parsed body of the [/analyze-invoice] response. *)
Definition client_output_file (py_repr : pyval -> string) (analysis : pyval)
  : result string :=
  data <- py_get analysis "data" (PDict []) ;;
  invoice_id <- py_get data "InvoiceId" (PStr "invoice") ;;
  Ok ("invoice_" ++ py_str py_repr invoice_id ++ ".pdf").

(** ** Notions for the properties below *)

(** The fields of all content blocks, in the order the two loops of
    [analyze_invoice] visit them. *)
Definition all_fields (contents : list (option dict))
  : list (string * pyval) :=
  flat_map (fun c => match c with Some fields => fields | None => [] end)
           contents.

(** The value of the last pair that has the given name. *)
Fixpoint last_value (name : string) (fields : list (string * pyval))
  : option pyval :=
  match fields with
  | [] => None
  | (k, v) :: rest =>
      match last_value name rest with
      | Some w => Some w
      | None => if String.eqb k name then Some v else None
      end
  end.

(** [JSONResponse] can encode the value. *)
Definition json_encodable (v : pyval) : bool :=
  match JSONResponse v with
  | Ok _ => true
  | Raise _ => false
  end.

(** What the attribute fallback returns for a value that is not [None]. *)
Definition attr_result (x : attrval) : pyval :=
  match x with
  | ANone => PNone
  | AStr s => PStr s
  | AInt z => PInt z
  | AFloat b => PFloat b
  | ABool b => PBool b
  | AOther s => PStr s
  end.

(** ** Auxiliary lemmas *)

Lemma bind_Ok_inv {A B} (m : result A) (k : A -> result B) (b : B) :
  bind m k = Ok b -> exists a, m = Ok a /\ k a = Ok b.
Proof.
  destruct m as [a|e]; simpl; intros H; [eauto | discriminate].
Qed.

Lemma dict_case_get {A} (key : string) (body : pyval -> A) (orelse : A) d :
  dict_case key body orelse d =
  match dict_get key d with
  | Some v => body v
  | None => orelse
  end.
Proof.
  induction d as [|[k v] d IH]; simpl; [reflexivity|].
  destruct (String.eqb k key); [reflexivity | exact IH].
Qed.

Lemma dict_get_In key d v : dict_get key d = Some v -> In (key, v) d.
Proof.
  induction d as [|[k w] d IH]; simpl; [discriminate|].
  destruct (String.eqb k key) eqn:E.
  - intros [= ->]. apply String.eqb_eq in E. subst. now left.
  - intros H. right. auto.
Qed.

Lemma dict_has_false key d : dict_has key d = false <-> dict_get key d = None.
Proof.
  unfold dict_has. destruct (dict_get key d); split; congruence.
Qed.

Lemma pysize_member k v d : In (k, v) d -> pysize v < pysize (PDict d).
Proof.
  simpl. induction d as [|[k' w] d IH]; simpl; [tauto|].
  intros [[= -> ->]|H]; [lia|]. specialize (IH H). lia.
Qed.

Lemma pysize_item x l : In x l -> pysize x < pysize (PList l).
Proof.
  simpl. induction l as [|y l IH]; simpl; [tauto|].
  intros [->|H]; [lia|]. specialize (IH H). lia.
Qed.

(** Induction on the size of a value: the traversal goes from a field to the
    members of its object value, two levels down. *)
Lemma pyval_size_ind (P : pyval -> Prop) :
  (forall v, (forall w, pysize w < pysize v -> P w) -> P v) ->
  forall v, P v.
Proof.
  intros step v.
  remember (pysize v) as n eqn:Hn.
  revert v Hn.
  induction n as [n IH] using lt_wf_ind.
  intros v ->. apply step. intros w Hw. exact (IH _ Hw w eq_refl).
Qed.

Lemma mapM_Forall2 {A B} (f : A -> result B) l l' :
  mapM f l = Ok l' <-> Forall2 (fun x y => f x = Ok y) l l'.
Proof.
  revert l'. induction l as [|x l IH]; intros l'; simpl.
  - split.
    + intros [= <-]. constructor.
    + intros H. inversion H. reflexivity.
  - split.
    + intros H.
      apply bind_Ok_inv in H as (y & Hy & H).
      apply bind_Ok_inv in H as (ys & Hys & H).
      injection H as <-. constructor; [exact Hy|]. now apply IH.
    + intros H. inversion H as [|? y ? ys Hy Hys]; subst.
      rewrite Hy. simpl. apply IH in Hys. rewrite Hys. reflexivity.
Qed.

Lemma mapM_total {A B} (f : A -> result B) l :
  Forall (fun x => exists y, f x = Ok y) l -> exists l', mapM f l = Ok l'.
Proof.
  induction 1 as [|x l [y Hy] _ [l' Hl']]; simpl.
  - now exists [].
  - exists (y :: l'). rewrite Hy. simpl. rewrite Hl'. reflexivity.
Qed.

(** *** Assignment into a dict *)

Lemma dict_set_fresh key v d :
  ~ In key (map fst d) -> dict_set key v d = (d ++ [(key, v)])%list.
Proof.
  induction d as [|[k w] d IH]; simpl; [reflexivity|].
  intros H. destruct (String.eqb k key) eqn:E.
  - apply String.eqb_eq in E. tauto.
  - f_equal. apply IH. tauto.
Qed.

Lemma dict_set_Forall (P : pyval -> Prop) key v d :
  P v -> Forall (fun kv => P (snd kv)) d ->
  Forall (fun kv => P (snd kv)) (dict_set key v d).
Proof.
  intros Hv. induction 1 as [|[k w] d Hw Hd IH]; simpl.
  - repeat constructor. exact Hv.
  - destruct (String.eqb k key); constructor; auto.
Qed.

Lemma fold_dict_set_fresh items : forall acc,
  NoDup (map fst (acc ++ items)%list) ->
  fold_left (fun acc kv => dict_set (fst kv) (snd kv) acc) items acc
  = (acc ++ items)%list.
Proof.
  induction items as [|[k v] items IH]; intros acc H; simpl.
  - now rewrite app_nil_r.
  - assert (Hk : ~ In k (map fst acc)).
    { rewrite map_app in H. simpl in H.
      apply NoDup_remove_2 in H. intros Hin. apply H.
      apply in_or_app. now left. }
    rewrite (dict_set_fresh _ _ _ Hk).
    replace (acc ++ (k, v) :: items)%list
      with ((acc ++ [(k, v)]) ++ items)%list in *
      by (rewrite <- app_assoc; reflexivity).
    now apply IH.
Qed.

(** From the items of a dict, whose keys differ, a comprehension rebuilds
    them as they are. *)
Lemma dict_of_items_NoDup items :
  NoDup (map fst items) -> dict_of_items items = items.
Proof.
  intros H. unfold dict_of_items. now rewrite fold_dict_set_fresh.
Qed.

Lemma dict_of_items_Forall (P : pyval -> Prop) items :
  Forall (fun kv => P (snd kv)) items ->
  Forall (fun kv => P (snd kv)) (dict_of_items items).
Proof.
  unfold dict_of_items.
  assert (G : forall acc, Forall (fun kv => P (snd kv)) acc ->
            Forall (fun kv => P (snd kv)) items ->
            Forall (fun kv => P (snd kv))
              (fold_left (fun acc kv => dict_set (fst kv) (snd kv) acc)
                         items acc)).
  { induction items as [|[k v] items IH]; intros acc Hacc Hit; simpl.
    - exact Hacc.
    - inversion Hit; subst. apply IH; [|assumption].
      apply dict_set_Forall; assumption. }
  intros H. apply G; [constructor | exact H].
Qed.

(** *** The normaliser on a dict-like field, by cases on its keys *)

Lemma probe_keys_none d :
  no_primitive_value d = true -> probe_keys value_keys d = None.
Proof.
  unfold no_primitive_value, value_keys. simpl.
  rewrite !andb_true_iff, !negb_true_iff, !dict_has_false.
  intros (-> & -> & -> & _). reflexivity.
Qed.

Lemma serialize_field_dict d :
  serialize_field (PDict d) =
  match probe_keys value_keys d with
  | Some v => Ok v
  | None =>
      match dict_get "valueObject" d with
      | Some (PDict members) =>
          items <- mapM (fun kv : string * pyval =>
                           let (k, v) := kv in
                           v' <- serialize_field v ;; Ok (k, v'))
                        members ;;
          Ok (PDict (dict_of_items items))
      | Some _ => Raise AttributeError
      | None =>
          match dict_get "valueArray" d with
          | Some (PList items) =>
              items' <- mapM serialize_field items ;; Ok (PList items')
          | Some (PStr s) =>
              Ok (PList (repeat PNone (List.length (str_chars s))))
          | Some (PDict m) => Ok (PList (repeat PNone (List.length m)))
          | Some _ => Raise TypeError
          | None => Ok PNone
          end
      end
  end.
Proof.
  cbn [serialize_field]. destruct (probe_keys value_keys d); [reflexivity|].
  rewrite !dict_case_get.
  destruct (dict_get "valueObject" d) as [[]|]; try reflexivity.
Qed.

Lemma json_leaves_dict d :
  json_leaves (PDict d) =
  match probe_keys value_keys d with
  | Some v => json_value v
  | None =>
      match dict_get "valueObject" d with
      | Some (PDict members) =>
          forallb (fun kv => json_leaves (snd kv)) members
      | Some _ => true
      | None =>
          match dict_get "valueArray" d with
          | Some (PList items) => forallb json_leaves items
          | _ => true
          end
      end
  end.
Proof.
  cbn [json_leaves]. destruct (probe_keys value_keys d); [reflexivity|].
  rewrite !dict_case_get.
  destruct (dict_get "valueObject" d) as [[]|]; try reflexivity.
Qed.

Lemma normalizable_dict d :
  normalizable (PDict d) =
  match probe_keys value_keys d with
  | Some _ => true
  | None =>
      match dict_get "valueObject" d with
      | Some (PDict members) =>
          forallb (fun kv => normalizable (snd kv)) members
      | Some _ => false
      | None =>
          match dict_get "valueArray" d with
          | Some (PList items) => forallb normalizable items
          | Some (PStr _) | Some (PDict _) => true
          | Some _ => false
          | None => true
          end
      end
  end.
Proof.
  cbn [normalizable]. destruct (probe_keys value_keys d); [reflexivity|].
  rewrite !dict_case_get.
  destruct (dict_get "valueObject" d) as [[]|]; try reflexivity.
Qed.

(** The strings of a one-character iteration, and the keys of a dict, are
    built-in values without a [get]: the branches of [serialize_field] that
    answer [None] for each of them agree with the function itself. *)
Lemma serialize_field_str s : serialize_field (PStr s) = Ok PNone.
Proof. reflexivity. Qed.

Lemma mapM_cons {A B} (f : A -> result B) x l :
  mapM f (x :: l) = (y <- f x ;; ys <- mapM f l ;; Ok (y :: ys)).
Proof. reflexivity. Qed.

Lemma mapM_strings {A} (f : A -> string) (l : list A) :
  mapM serialize_field (map (fun x => PStr (f x)) l)
  = Ok (repeat PNone (List.length l)).
Proof.
  induction l as [|x l IH]; [reflexivity|].
  cbn [map]. rewrite mapM_cons, IH. reflexivity.
Qed.

(** The object branch as the source has it:
    [{k: serialize_field(v) for k, v in obj.items()}]. *)
Lemma serialize_field_object_value d obj :
  no_primitive_value d = true ->
  dict_get "valueObject" d = Some obj ->
  serialize_field (PDict d) =
  (members <- py_items obj ;;
   items <- mapM (fun kv : string * pyval =>
                    let (k, v) := kv in
                    v' <- serialize_field v ;; Ok (k, v'))
                 members ;;
   Ok (PDict (dict_of_items items))).
Proof.
  intros Hprim Hobj.
  rewrite serialize_field_dict, (probe_keys_none _ Hprim), Hobj.
  destruct obj; reflexivity.
Qed.

(** The array branch as the source has it:
    [[serialize_field(item) for item in field["valueArray"]]]. *)
Lemma serialize_field_array_value d arr :
  no_primitive_value d = true ->
  dict_get "valueObject" d = None ->
  dict_get "valueArray" d = Some arr ->
  serialize_field (PDict d) =
  (items <- py_iter arr ;;
   items' <- mapM serialize_field items ;;
   Ok (PList items')).
Proof.
  intros Hprim Hobj Harr.
  rewrite serialize_field_dict, (probe_keys_none _ Hprim), Hobj, Harr.
  destruct arr as [| | | | s | items | m |]; try reflexivity.
  - cbn [py_iter bind]. rewrite (mapM_strings (fun x => x)). reflexivity.
  - cbn [py_iter bind]. rewrite (mapM_strings fst). reflexivity.
Qed.

Lemma probe_attrs_json names attrs :
  json_value (probe_attrs names attrs) = true.
Proof.
  induction names as [|a names IH]; simpl; [reflexivity|].
  destruct (getattr a attrs); auto.
Qed.

Lemma json_value_repeat_None n : forallb json_value (repeat PNone n) = true.
Proof. induction n; simpl; auto. Qed.

(** ** The normaliser: primitive, object and array values *)

(** The first key of the probing order that is present decides. *)
Lemma probe_keys_first before key after d v :
  (forall k, In k before -> dict_get k d = None) ->
  dict_get key d = Some v ->
  probe_keys (before ++ key :: after)%list d = Some v.
Proof.
  intros Hbefore Hkey. induction before as [|k before IH]; simpl.
  - now rewrite Hkey.
  - rewrite (Hbefore k) by now left.
    apply IH. intros k' Hk'. apply Hbefore. now right.
Qed.

(** C3.  On a dict-like field the keys [valueString], [valueNumber],
    [valueDate] are probed in this order and the value under the first one
    present is returned unchanged: a string value wins over a number value,
    which wins over a date value. *)
Theorem serialize_field_primitive_priority (d : dict) :
  (forall v, dict_get "valueString" d = Some v ->
             serialize_field (PDict d) = Ok v) /\
  (forall v, dict_get "valueString" d = None ->
             dict_get "valueNumber" d = Some v ->
             serialize_field (PDict d) = Ok v) /\
  (forall v, dict_get "valueString" d = None ->
             dict_get "valueNumber" d = None ->
             dict_get "valueDate" d = Some v ->
             serialize_field (PDict d) = Ok v).
Proof.
  repeat split; intros v.
  - intros H. rewrite serialize_field_dict.
    assert (E : probe_keys value_keys d = Some v).
    { apply (probe_keys_first [] "valueString" ["valueNumber"; "valueDate"]);
        [intros k [] | exact H]. }
    now rewrite E.
  - intros H1 H2. rewrite serialize_field_dict.
    assert (E : probe_keys value_keys d = Some v).
    { apply (probe_keys_first ["valueString"] "valueNumber" ["valueDate"]);
        [intros k [<-|[]]; exact H1 | exact H2]. }
    now rewrite E.
  - intros H1 H2 H3. rewrite serialize_field_dict.
    assert (E : probe_keys value_keys d = Some v).
    { apply (probe_keys_first ["valueString"; "valueNumber"] "valueDate" []);
        [intros k [<-|[<-|[]]]; assumption | exact H3]. }
    now rewrite E.
Qed.

Lemma serialize_field_primitive_priority_witness :
  serialize_field
    (PDict [("type", PStr "number");
            ("valueDate", PStr "2024-05-01");
            ("valueNumber", PInt 7);
            ("valueString", PStr "seven")]) = Ok (PStr "seven")
  /\ serialize_field
       (PDict [("valueDate", PStr "2024-05-01"); ("valueNumber", PInt 7)])
     = Ok (PInt 7)
  /\ serialize_field (PDict [("valueDate", PStr "2024-05-01")])
     = Ok (PStr "2024-05-01").
Proof.
  split; [|split].
  - apply (proj1 (serialize_field_primitive_priority _)). reflexivity.
  - apply (proj1 (proj2 (serialize_field_primitive_priority _))); reflexivity.
  - apply (proj2 (proj2 (serialize_field_primitive_priority _))); reflexivity.
Defined.

(** C4.  On a dict-like field with a [valueObject] key and none of the
    primitive-value keys, whose object value is a mapping [members], the
    result is the mapping [members'] that has the keys of [members], in
    their order, and under each key the normalised member. *)
Theorem serialize_field_object (d members members' : dict) :
  no_primitive_value d = true ->
  dict_get "valueObject" d = Some (PDict members) ->
  NoDup (map fst members) ->
  Forall2 (fun kv kv' => fst kv' = fst kv /\
                         serialize_field (snd kv) = Ok (snd kv'))
          members members' ->
  serialize_field (PDict d) = Ok (PDict members').
Proof.
  intros Hprim Hobj Hkeys Hmembers.
  rewrite serialize_field_dict, (probe_keys_none _ Hprim), Hobj.
  assert (Hmap : mapM (fun kv : string * pyval =>
                         let (k, v) := kv in
                         v' <- serialize_field v ;; Ok (k, v'))
                      members = Ok members').
  { apply mapM_Forall2.
    eapply Forall2_impl; [|exact Hmembers].
    intros [k v] [k' v']; simpl. intros [-> ->]. reflexivity. }
  rewrite Hmap. simpl. do 2 f_equal.
  apply dict_of_items_NoDup.
  replace (map fst members') with (map fst members); [exact Hkeys|].
  clear -Hmembers. induction Hmembers as [|kv kv' ? ? [H _] _ IH]; simpl.
  - reflexivity.
  - now rewrite H, IH.
Qed.

Lemma serialize_field_object_witness :
  serialize_field
    (PDict [("type", PStr "object");
            ("valueObject",
             PDict [("Amount", PDict [("valueNumber", PInt 120)]);
                    ("CurrencyCode", PDict [("valueString", PStr "USD")]);
                    ("Note", PDict [("type", PStr "string")])])])
  = Ok (PDict [("Amount", PInt 120);
               ("CurrencyCode", PStr "USD");
               ("Note", PNone)]).
Proof.
  eapply serialize_field_object.
  - reflexivity.
  - reflexivity.
  - simpl. repeat constructor; simpl; intuition discriminate.
  - repeat constructor.
Defined.

(** C5.  On a dict-like field with a [valueArray] key and none of the
    primitive-value or object-value keys, whose array value is a list
    [items], the result is the list [items'] of the normalised items, in the
    order of [items]. *)
Theorem serialize_field_array (d : dict) (items items' : list pyval) :
  no_primitive_value d = true ->
  dict_get "valueObject" d = None ->
  dict_get "valueArray" d = Some (PList items) ->
  Forall2 (fun x y => serialize_field x = Ok y) items items' ->
  serialize_field (PDict d) = Ok (PList items').
Proof.
  intros Hprim Hobj Harr Hitems.
  rewrite serialize_field_dict, (probe_keys_none _ Hprim), Hobj, Harr.
  apply mapM_Forall2 in Hitems. rewrite Hitems. reflexivity.
Qed.

Lemma serialize_field_array_witness :
  serialize_field
    (PDict [("type", PStr "array");
            ("valueArray",
             PList [PDict [("valueString", PStr "b")];
                    PDict [("valueString", PStr "a")];
                    PNone;
                    PDict [("valueArray",
                            PList [PDict [("valueNumber", PInt 1)]])]])])
  = Ok (PList [PStr "b"; PStr "a"; PNone; PList [PInt 1]]).
Proof.
  eapply serialize_field_array.
  - reflexivity.
  - reflexivity.
  - reflexivity.
  - repeat constructor.
Defined.

(** ** The normaliser: shape of the result and totality *)

Lemma Forall2_Forall_r {A B} (R : A -> B -> Prop) (Q : B -> Prop) l l' :
  Forall2 R l l' ->
  (forall x y, In x l -> R x y -> Q y) ->
  Forall Q l'.
Proof.
  induction 1 as [|x y l l' Hxy _ IH]; intros HQ; constructor.
  - apply (HQ x y); [now left | exact Hxy].
  - apply IH. intros x' y' Hin. apply HQ. now right.
Qed.

Lemma forallb_Forall {A} (f : A -> bool) l :
  forallb f l = true <-> Forall (fun x => f x = true) l.
Proof. rewrite forallb_forall, Forall_forall. reflexivity. Qed.

(** C1, as the code has it.  When every value stored under a probed
    [valueString], [valueNumber] or [valueDate] key is a JSON value, the
    value the normaliser returns is null, a string, a number, a boolean, a
    string-keyed mapping of such values or an ordered sequence of such
    values.  The boolean stays: the attribute fallback lets a [bool]
    through. *)
Theorem serialize_field_json_value (field v : pyval) :
  json_leaves field = true ->
  serialize_field field = Ok v ->
  json_value v = true.
Proof.
  revert v. induction field as [field IH] using pyval_size_ind.
  intros v Hleaves Hser.
  destruct field as [| b | z | x | s | l | d | attrs];
    try (injection Hser as <-; reflexivity).
  - (* dict-like *)
    rewrite serialize_field_dict in Hser.
    rewrite json_leaves_dict in Hleaves.
    destruct (probe_keys value_keys d) as [w|].
    { injection Hser as <-. exact Hleaves. }
    destruct (dict_get "valueObject" d) as [obj|] eqn:Eobj.
    + destruct obj as [| | | | | | members |]; try discriminate.
      apply bind_Ok_inv in Hser as (items & Hitems & [= <-]).
      apply mapM_Forall2 in Hitems.
      cbn [json_value]. apply forallb_Forall.
      apply (dict_of_items_Forall (fun w => json_value w = true)).
      apply forallb_Forall in Hleaves. rewrite Forall_forall in Hleaves.
      eapply Forall2_Forall_r; [exact Hitems|].
      intros [k w] kv' Hin Hkv. cbn beta iota in Hkv.
      apply bind_Ok_inv in Hkv as (w' & Hw & [= <-]). simpl.
      apply (IH w); [|exact (Hleaves _ Hin)|exact Hw].
      apply dict_get_In in Eobj.
      pose proof (pysize_member _ _ _ Hin).
      pose proof (pysize_member _ _ _ Eobj). lia.
    + destruct (dict_get "valueArray" d) as [arr|] eqn:Earr;
        [|injection Hser as <-; reflexivity].
      destruct arr as [| | | | s | items | m |]; try discriminate.
      * injection Hser as <-. apply json_value_repeat_None.
      * apply bind_Ok_inv in Hser as (items' & Hitems & [= <-]).
        apply mapM_Forall2 in Hitems.
        cbn [json_value]. apply forallb_Forall.
        apply forallb_Forall in Hleaves. rewrite Forall_forall in Hleaves.
        eapply Forall2_Forall_r; [exact Hitems|].
        intros x y Hin Hxy.
        apply (IH x); [|exact (Hleaves _ Hin)|exact Hxy].
        apply dict_get_In in Earr.
        pose proof (pysize_item _ _ Hin).
        pose proof (pysize_member _ _ _ Earr). lia.
      * injection Hser as <-. apply json_value_repeat_None.
  - (* typed object *)
    injection Hser as <-. exact (probe_attrs_json value_attrs attrs).
Qed.

Lemma serialize_field_json_value_witness :
  json_value
    (PDict [("Paid", PBool true); ("Lines", PList [PStr "a"; PNone])]) = true.
Proof.
  apply (serialize_field_json_value
           (PDict [("valueObject",
                    PDict [("Paid", PObj [("value", ABool true)]);
                           ("Lines",
                            PDict [("valueArray",
                                    PList [PDict [("valueString", PStr "a")];
                                           PDict []])])])])).
  - reflexivity.
  - reflexivity.
Defined.

(** C1 as stated fails: a typed field object whose generic [value]
    attribute is [True] is normalised to the boolean itself, which is not a
    canonical value. *)
Lemma serialize_field_returns_boolean :
  exists v,
    serialize_field (PObj [("value_string", ANone); ("value", ABool true)])
    = Ok v
    /\ canonical v = false.
Proof. exists (PBool true). split; reflexivity. Qed.

(** The value under a primitive-value key is handed back as it is, whatever
    it is: here a typed object. *)
Example serialize_field_returns_stored_object :
  serialize_field (PDict [("valueString", PObj [("value", AInt 1)])])
  = Ok (PObj [("value", AInt 1)]).
Proof. reflexivity. Qed.

(** A number under [valueArray] does not iterate. *)
Example serialize_field_number_array_raises :
  serialize_field (PDict [("valueArray", PInt 3)]) = Raise TypeError.
Proof. reflexivity. Qed.

Lemma probe_attrs_no_value attrs :
  no_value (PObj attrs) = true -> probe_attrs value_attrs attrs = PNone.
Proof.
  unfold no_value, value_attrs. simpl.
  destruct (getattr "value_string" attrs); try discriminate.
  destruct (getattr "value_number" attrs); try discriminate.
  destruct (getattr "value_date" attrs); try discriminate.
  destruct (getattr "value" attrs); try discriminate.
  reflexivity.
Qed.

Lemma serialize_field_normalizable (field : pyval) :
  normalizable field = true -> exists v, serialize_field field = Ok v.
Proof.
  induction field as [field IH] using pyval_size_ind.
  intros Hn.
  destruct field as [| b | z | x | s | l | d | attrs];
    try (eexists; reflexivity).
  rewrite serialize_field_dict.
  rewrite normalizable_dict in Hn.
  destruct (probe_keys value_keys d) as [w|]; [eauto|].
  destruct (dict_get "valueObject" d) as [obj|] eqn:Eobj.
  - destruct obj as [| | | | | | members |]; try discriminate.
    apply forallb_Forall in Hn. rewrite Forall_forall in Hn.
    destruct (mapM_total
                (fun kv : string * pyval =>
                   let (k, v) := kv in
                   v' <- serialize_field v ;; Ok (k, v'))
                members) as [items Hitems].
    { apply Forall_forall. intros [k w] Hin.
      destruct (IH w) as [w' Hw'].
      - apply dict_get_In in Eobj.
        pose proof (pysize_member _ _ _ Hin).
        pose proof (pysize_member _ _ _ Eobj). lia.
      - exact (Hn _ Hin).
      - exists (k, w'). rewrite Hw'. reflexivity. }
    rewrite Hitems. eexists; reflexivity.
  - destruct (dict_get "valueArray" d) as [arr|] eqn:Earr; [|eauto].
    destruct arr as [| | | | | items | |]; try discriminate; eauto.
    apply forallb_Forall in Hn. rewrite Forall_forall in Hn.
    destruct (mapM_total serialize_field items) as [items' Hitems].
    { apply Forall_forall. intros x Hin. apply IH; [|exact (Hn _ Hin)].
      apply dict_get_In in Earr.
      pose proof (pysize_item _ _ Hin).
      pose proof (pysize_member _ _ _ Earr). lia. }
    rewrite Hitems. eexists; reflexivity.
Qed.

Lemma serialize_field_no_value (field : pyval) :
  no_value field = true -> serialize_field field = Ok PNone.
Proof.
  destruct field as [| b | z | x | s | l | d | attrs]; try reflexivity.
  - intros H. rewrite serialize_field_dict.
    unfold no_value, recognized_keys, value_keys in H. simpl in H.
    rewrite !andb_true_iff, !negb_true_iff, !dict_has_false in H.
    destruct H as (Hs & Hn & Hd & Ho & Ha & _).
    unfold value_keys. simpl.
    now rewrite Hs, Hn, Hd, Ho, Ha.
  - intros H. cbn [serialize_field]. now rewrite probe_attrs_no_value.
Qed.

(** C6, as the code has it.  The normaliser raises on no field in which
    every object value the traversal reaches is a mapping and every array
    value it reaches can be iterated, whichever value keys the field
    populates; and it returns null for a null input, for a dict-like field
    without any recognised value key (the Empty variant), for a typed object
    without any value attribute, and for a built-in value, which has
    neither. *)
Theorem serialize_field_total :
  (forall field, normalizable field = true ->
                 exists v, serialize_field field = Ok v) /\
  (forall field, no_value field = true -> serialize_field field = Ok PNone).
Proof.
  split; [exact serialize_field_normalizable | exact serialize_field_no_value].
Qed.

(** C6 as stated fails: an object field whose [valueObject] is null is not
    degraded to null; [obj.items()] raises [AttributeError] on it. *)
Lemma serialize_field_raises_on_null_object :
  serialize_field (PDict [("type", PStr "object"); ("valueObject", PNone)])
  = Raise AttributeError.
Proof. reflexivity. Qed.

Lemma serialize_field_total_witness :
  (exists v,
     serialize_field
       (PDict [("valueObject",
                PDict [("Both", PDict [("valueNumber", PInt 1);
                                       ("valueArray", PNone)]);
                       ("Typed", PObj [("value_date", AOther "2024-05-01")]);
                       ("Items",
                        PDict [("valueArray",
                                PList [PNone; PInt 3;
                                       PDict [("type", PStr "x")]])])])])
     = Ok v)
  /\ serialize_field (PDict [("type", PStr "string"); ("confidence", PInt 1)])
     = Ok PNone
  /\ serialize_field (PObj [("value", ANone); ("confidence", AInt 1)])
     = Ok PNone
  /\ serialize_field PNone = Ok PNone.
Proof.
  split; [|split; [|split]].
  - apply (proj1 serialize_field_total). reflexivity.
  - apply (proj2 serialize_field_total). reflexivity.
  - apply (proj2 serialize_field_total). reflexivity.
  - apply (proj2 serialize_field_total). reflexivity.
Defined.

(** ** [generate_pdf]: the envelope *)

Lemma unwrap_dict (d : dict) :
  unwrap (PDict d) =
  if is_envelope d then
    match dict_get "data" d with
    | Some x => Ok x
    | None => Raise KeyError
    end
  else Ok (PDict d).
Proof.
  unfold unwrap, is_envelope. simpl.
  destruct (dict_has "data" d), (dict_has "status" d); reflexivity.
Qed.

(** C2, as the code has it.  The unwrap step replaces an input mapping that
    has both a [status] and a [data] key by the value of [data] and leaves
    any other mapping as it is; applying it twice gives what applying it
    once gives whenever the input is a bare document or an envelope whose
    [data] is a mapping that is not an envelope itself. *)
Theorem unwrap_idempotent (d : dict) :
  (is_envelope d = false -> unwrap (PDict d) = Ok (PDict d)) /\
  (forall v, is_envelope d = true -> dict_get "data" d = Some v ->
             unwrap (PDict d) = Ok v) /\
  (single_envelope d = true ->
   (y <- unwrap (PDict d) ;; unwrap y) = unwrap (PDict d)).
Proof.
  split; [|split].
  - intros H. now rewrite unwrap_dict, H.
  - intros v H Hv. now rewrite unwrap_dict, H, Hv.
  - unfold single_envelope. rewrite unwrap_dict.
    destruct (is_envelope d) eqn:E.
    + destruct (dict_get "data" d) as [[| | | | | | m |]|]; try discriminate.
      intros Hm. apply negb_true_iff in Hm.
      simpl. now rewrite unwrap_dict, Hm.
    + intros _. simpl. now rewrite unwrap_dict, E.
Qed.

Lemma unwrap_idempotent_witness :
  (y <- unwrap (PDict [("status", PStr "success");
                       ("data", PDict [("InvoiceId", PStr "INV-42");
                                       ("status", PStr "paid")]);
                       ("raw_result", PNone)]) ;;
   unwrap y)
  = unwrap (PDict [("status", PStr "success");
                   ("data", PDict [("InvoiceId", PStr "INV-42");
                                   ("status", PStr "paid")]);
                   ("raw_result", PNone)])
  /\ unwrap (PDict [("InvoiceId", PStr "INV-42"); ("status", PStr "paid")])
     = Ok (PDict [("InvoiceId", PStr "INV-42"); ("status", PStr "paid")])
  /\ unwrap (PDict [("status", PStr "success"); ("data", PInt 5)])
     = Ok (PInt 5).
Proof.
  split; [|split].
  - apply (proj2 (proj2 (unwrap_idempotent _))). reflexivity.
  - apply (proj1 (unwrap_idempotent _)). reflexivity.
  - apply (proj1 (proj2 (unwrap_idempotent _))); reflexivity.
Defined.

(** C2 as stated fails: a document that has fields named [status] and
    [data] of its own, sent inside an envelope, is unwrapped once to the
    document and a second time to its [data] field. *)
Lemma unwrap_twice_differs :
  (y <- unwrap
          (PDict [("status", PStr "success");
                  ("data",
                   PDict [("status", PStr "paid");
                          ("data", PDict [("InvoiceId", PStr "1")])])]) ;;
   unwrap y)
  <> unwrap
       (PDict [("status", PStr "success");
               ("data",
                PDict [("status", PStr "paid");
                       ("data", PDict [("InvoiceId", PStr "1")])])]).
Proof. vm_compute. discriminate. Qed.

(** When [data] is not a mapping a second application can raise. *)
Example unwrap_twice_raises :
  (y <- unwrap (PDict [("status", PStr "success"); ("data", PInt 5)]) ;;
   unwrap y) = Raise TypeError.
Proof. reflexivity. Qed.

(** ** [generate_pdf]: currency and file name *)

(** C7.  On a document mapping the derived currency is the value at
    [TotalAmount.CurrencyCode] when [TotalAmount] is a mapping that has the
    key, and the empty string when [TotalAmount] is a mapping without the
    key, is absent, or is not a mapping; no case raises. *)
Theorem derive_currency_spec (d : dict) :
  (forall t c, dict_get "TotalAmount" d = Some (PDict t) ->
               dict_get "CurrencyCode" t = Some c ->
               derive_currency (PDict d) = Ok c) /\
  (forall t, dict_get "TotalAmount" d = Some (PDict t) ->
             dict_get "CurrencyCode" t = None ->
             derive_currency (PDict d) = Ok (PStr "")) /\
  (dict_get "TotalAmount" d = None ->
   derive_currency (PDict d) = Ok (PStr "")) /\
  (forall v, dict_get "TotalAmount" d = Some v ->
             (forall t, v <> PDict t) ->
             derive_currency (PDict d) = Ok (PStr "")).
Proof.
  unfold derive_currency. simpl.
  split; [|split; [|split]].
  - intros t c -> Hc. simpl. now rewrite Hc.
  - intros t -> Hc. simpl. now rewrite Hc.
  - intros ->. reflexivity.
  - intros v -> Hv. destruct v; try reflexivity. now destruct (Hv entries).
Qed.

Lemma derive_currency_spec_witness :
  derive_currency
    (PDict [("InvoiceId", PStr "INV-42");
            ("TotalAmount", PDict [("Amount", PInt 120);
                                   ("CurrencyCode", PStr "USD")])])
  = Ok (PStr "USD")
  /\ derive_currency (PDict [("TotalAmount", PDict [("Amount", PInt 120)])])
     = Ok (PStr "")
  /\ derive_currency (PDict [("InvoiceId", PStr "INV-42")]) = Ok (PStr "")
  /\ derive_currency (PDict [("TotalAmount", PInt 120)]) = Ok (PStr "").
Proof.
  split; [|split; [|split]].
  - eapply (proj1 (derive_currency_spec _)); reflexivity.
  - eapply (proj1 (proj2 (derive_currency_spec _))); reflexivity.
  - apply (proj1 (proj2 (proj2 (derive_currency_spec _)))). reflexivity.
  - eapply (proj2 (proj2 (proj2 (derive_currency_spec _)))).
    + reflexivity.
    + intros t. discriminate.
Defined.

(** C8.  On a document mapping the file name is ["invoice_"], the text of
    the [InvoiceId] field, [".pdf"]; for a string identifier the text is the
    string; when the key is absent the token ["invoice"] takes its place and
    the name is ["invoice_invoice.pdf"]. *)
Theorem derive_filename_spec (py_repr : pyval -> string) (d : dict) :
  (forall id, dict_get "InvoiceId" d = Some id ->
              derive_filename py_repr (PDict d)
              = Ok ("invoice_" ++ py_str py_repr id ++ ".pdf")) /\
  (forall s, dict_get "InvoiceId" d = Some (PStr s) ->
             derive_filename py_repr (PDict d)
             = Ok ("invoice_" ++ s ++ ".pdf")) /\
  (dict_get "InvoiceId" d = None ->
   derive_filename py_repr (PDict d) = Ok "invoice_invoice.pdf").
Proof.
  unfold derive_filename. simpl.
  split; [|split].
  - intros id ->. reflexivity.
  - intros s ->. reflexivity.
  - intros ->. reflexivity.
Qed.

Lemma derive_filename_spec_witness :
  derive_filename (fun _ => "") (PDict [("InvoiceId", PInt 42)])
  = Ok "invoice_42.pdf"
  /\ derive_filename (fun _ => "")
       (PDict [("TotalAmount", PInt 1); ("InvoiceId", PStr "INV-42")])
     = Ok "invoice_INV-42.pdf"
  /\ derive_filename (fun _ => "") (PDict [("TotalAmount", PInt 1)])
     = Ok "invoice_invoice.pdf".
Proof.
  split; [|split].
  - apply (proj1 (derive_filename_spec (fun _ => "") _) (PInt 42)).
    reflexivity.
  - apply (proj1 (proj2 (derive_filename_spec (fun _ => "") _)) "INV-42").
    reflexivity.
  - apply (proj2 (proj2 (derive_filename_spec (fun _ => "") _))).
    reflexivity.
Defined.

(** C10.  When the [InvoiceId] key is present with a null value the default
    does not apply: the identifier is the null value, whose text is
    ["None"], and the file name is ["invoice_None.pdf"]. *)
Theorem derive_filename_null_id (py_repr : pyval -> string) (d : dict) :
  dict_get "InvoiceId" d = Some PNone ->
  derive_filename py_repr (PDict d) = Ok "invoice_None.pdf"
  /\ derive_filename py_repr (PDict d) <> Ok "invoice_invoice.pdf".
Proof.
  intros H. unfold derive_filename. simpl. rewrite H. simpl.
  split; [reflexivity | discriminate].
Qed.

Lemma derive_filename_null_id_witness :
  derive_filename (fun _ => "")
    (PDict [("InvoiceId", PNone); ("TotalAmount", PInt 1)])
  = Ok "invoice_None.pdf"
  /\ derive_filename (fun _ => "")
       (PDict [("InvoiceId", PNone); ("TotalAmount", PInt 1)])
     <> Ok "invoice_invoice.pdf".
Proof.
  apply (derive_filename_null_id (fun _ => "")). reflexivity.
Defined.

(** ** [generate_pdf] as a whole *)

Section RenderingFacts.

Variable py_repr : pyval -> string.
Variable get_template : result (pyval -> dict -> result string).
Variable html_to_pdf : string -> result (list Byte.byte).

(** A response carries the file name derived from the effective document,
    and the template was given the currency derived from it. *)
Lemma generate_pdf_response (invoice_data : dict) (response : Response) :
  generate_pdf py_repr get_template html_to_pdf invoice_data = inr response ->
  exists doc currency template rendered_html,
    unwrap (PDict invoice_data) = Ok (PDict doc)
    /\ derive_currency (PDict doc) = Ok currency
    /\ get_template = Ok template
    /\ template currency doc = Ok rendered_html
    /\ html_to_pdf rendered_html = Ok (content response)
    /\ derive_filename py_repr (PDict doc) = Ok (filename response).
Proof.
  unfold generate_pdf.
  destruct (unwrap (PDict invoice_data)) as [doc|e]; [|discriminate].
  cbn [bind].
  destruct (derive_currency doc) as [currency|e] eqn:Ec; [|discriminate].
  cbn [bind].
  destruct get_template as [template|e] eqn:Et; [|discriminate].
  cbn [bind].
  destruct doc as [| | | | | | doc |]; try discriminate.
  unfold render_html.
  destruct (dict_has "currency" doc); [discriminate|].
  destruct (template currency doc) as [html|e] eqn:Eh; [|discriminate].
  cbn [bind].
  destruct (html_to_pdf html) as [pdf|e] eqn:Ep; [|discriminate].
  cbn [bind].
  destruct (derive_filename py_repr (PDict doc)) as [name|e] eqn:En;
    [|discriminate].
  cbn [bind]. unfold attachment_response.
  destruct (latin1_encodable name); [|discriminate].
  intros [= <-]. simpl.
  exists doc, currency, template, html. auto 10.
Qed.

(** Whatever fails, the caller sees status 500. *)
Lemma generate_pdf_failure (invoice_data : dict) (h : HTTPException) :
  generate_pdf py_repr get_template html_to_pdf invoice_data = inl h ->
  status_code h = Some 500%Z.
Proof.
  unfold generate_pdf.
  match goal with |- match ?m with _ => _ end = _ -> _ => destruct m end;
    [discriminate | intros [= <-]; reflexivity].
Qed.

(** X9.  An envelope around a bare document renders as the document does:
    when the input has both a [status] and a [data] key and [data] is a
    mapping that is not an envelope itself, the outcome (response or error)
    is that of calling [generate_pdf] on [data]. *)
Lemma generate_pdf_envelope (invoice_data data : dict) :
  is_envelope invoice_data = true ->
  dict_get "data" invoice_data = Some (PDict data) ->
  is_envelope data = false ->
  generate_pdf py_repr get_template html_to_pdf invoice_data
  = generate_pdf py_repr get_template html_to_pdf data.
Proof.
  intros Henv Hdata Hbare. unfold generate_pdf.
  now rewrite !unwrap_dict, Henv, Hdata, Hbare.
Qed.

(** A document with a field named [currency] cannot be rendered: the
    keyword is given twice. *)
Lemma generate_pdf_currency_field (invoice_data : dict) :
  is_envelope invoice_data = false ->
  dict_has "currency" invoice_data = true ->
  exists h,
    generate_pdf py_repr get_template html_to_pdf invoice_data = inl h.
Proof.
  intros Hbare Hcur. unfold generate_pdf.
  rewrite unwrap_dict, Hbare. cbn [bind].
  match goal with |- exists _, match ?m with _ => _ end = _ =>
    assert (E : exists e, m = Raise e) end.
  { destruct (derive_currency (PDict invoice_data)); cbn [bind]; [|eauto].
    destruct get_template; cbn [bind]; [|eauto].
    unfold render_html. rewrite Hcur. cbn [bind]. eauto. }
  destruct E as [e ->]. eauto.
Qed.

End RenderingFacts.

(** ** [analyze_invoice]: errors of the extraction collaborator *)

(** An [HttpResponseError] is surfaced with its own [status_code], any other
    exception with 500. *)
Lemma analyze_invoice_error_status (e : exn) (raw : pyval) :
  exists h,
    analyze_invoice (Raise e) raw = inl h
    /\ status_code h = match e with
                       | HttpResponseError sc _ => sc
                       | _ => Some 500%Z
                       end.
Proof. destruct e; eexists; split; reflexivity. Qed.

(** C9.  An [HttpResponseError] of the collaborator without a status code
    is surfaced without one: the handler passes [e.status_code] on as it is,
    where the claim asks for 500. *)
Theorem analyze_invoice_status_unavailable (message : string) (raw : pyval) :
  exists h,
    analyze_invoice (Raise (HttpResponseError None message)) raw = inl h
    /\ status_code h = None
    /\ status_code h <> Some 500%Z.
Proof.
  eexists. split; [reflexivity|]. simpl. split; [reflexivity | discriminate].
Qed.

(** With a status code, and for any other exception, the claim holds. *)
Example analyze_invoice_status_upstream :
  analyze_invoice (Raise (HttpResponseError (Some 401%Z) "Access denied")) PNone
  = inl {| status_code := Some 401%Z;
           detail_prefix := "Azure Error: ";
           cause := HttpResponseError (Some 401%Z) "Access denied" |}.
Proof. reflexivity. Qed.

(** An exception of the normaliser is not an [HttpResponseError]: it is
    surfaced with 500 by the second handler. *)
Example analyze_invoice_normaliser_raises :
  analyze_invoice (Ok [Some [("Total", PDict [("valueObject", PNone)])]]) PNone
  = inl {| status_code := Some 500%Z;
           detail_prefix := "Server Error: ";
           cause := AttributeError |}.
Proof. reflexivity. Qed.

(** Of two content blocks that define the same field the later one wins. *)
Example analyze_invoice_last_write_wins :
  analyze_invoice
    (Ok [Some [("CustomerName", PDict [("valueString", PStr "first")])];
         Some [("CustomerName", PDict [("valueString", PStr "second")])]])
    PNone
  = inr (PDict [("status", PStr "success");
                ("data", PDict [("CustomerName", PStr "second")]);
                ("raw_result", PNone)]).
Proof. reflexivity. Qed.

(** ** Further properties of the normaliser *)

Lemma bind_Raise_inv {A B} (m : result A) (k : A -> result B) (e : exn) :
  bind m k = Raise e -> m = Raise e \/ exists a, m = Ok a /\ k a = Raise e.
Proof.
  destruct m as [a|e']; simpl; intros H; [right; eauto | left; congruence].
Qed.

Lemma mapM_Raise_inv {A B} (f : A -> result B) l e :
  mapM f l = Raise e -> Exists (fun x => f x = Raise e) l.
Proof.
  induction l as [|x l IH]; [discriminate|].
  rewrite mapM_cons. intros H.
  apply bind_Raise_inv in H as [H|(y & Hy & H)]; [now left|].
  apply bind_Raise_inv in H as [H|(ys & _ & H)]; [|discriminate].
  right. now apply IH.
Qed.

Lemma mapM_raises {A B} (f : A -> result B) l :
  Exists (fun x => exists e, f x = Raise e) l ->
  exists e, mapM f l = Raise e.
Proof.
  induction 1 as [x l [e He]|x l _ [e IH]]; rewrite mapM_cons.
  - exists e. now rewrite He.
  - destruct (f x) as [y|e']; [|exists e'; reflexivity].
    exists e. simpl. now rewrite IH.
Qed.

Lemma serialize_field_Raise_class (field : pyval) (e : exn) :
  serialize_field field = Raise e -> e = AttributeError \/ e = TypeError.
Proof.
  induction field as [field IH] using pyval_size_ind.
  intros Hser.
  destruct field as [| b | z | x | s | l | d | attrs]; try discriminate.
  rewrite serialize_field_dict in Hser.
  destruct (probe_keys value_keys d) as [w|]; [discriminate|].
  destruct (dict_get "valueObject" d) as [obj|] eqn:Eobj.
  - destruct obj as [| | | | | | members |];
      try (injection Hser as <-; now left).
    apply bind_Raise_inv in Hser as [Hser|(items & _ & Hser)];
      [|discriminate].
    apply mapM_Raise_inv in Hser. apply Exists_exists in Hser.
    destruct Hser as ([k w] & Hin & Hw).
    apply bind_Raise_inv in Hw as [Hw|(w' & _ & Hw)]; [|discriminate].
    apply (IH w); [|exact Hw].
    apply dict_get_In in Eobj.
    pose proof (pysize_member _ _ _ Hin).
    pose proof (pysize_member _ _ _ Eobj). lia.
  - destruct (dict_get "valueArray" d) as [arr|] eqn:Earr; [|discriminate].
    destruct arr as [| | | | | items | |];
      try discriminate; try (injection Hser as <-; now right).
    apply bind_Raise_inv in Hser as [Hser|(items' & _ & Hser)];
      [|discriminate].
    apply mapM_Raise_inv in Hser. apply Exists_exists in Hser.
    destruct Hser as (x & Hin & Hx).
    apply (IH x); [|exact Hx].
    apply dict_get_In in Earr.
    pose proof (pysize_item _ _ Hin).
    pose proof (pysize_member _ _ _ Earr). lia.
Qed.

Lemma forallb_false_Exists {A} (f : A -> bool) l :
  forallb f l = false -> Exists (fun x => f x = false) l.
Proof.
  induction l as [|x l IH]; simpl; [discriminate|].
  destruct (f x) eqn:E; simpl; intros H; [right; auto | now left].
Qed.

Lemma serialize_field_not_normalizable (field : pyval) :
  normalizable field = false -> exists e, serialize_field field = Raise e.
Proof.
  induction field as [field IH] using pyval_size_ind.
  intros Hn.
  destruct field as [| b | z | x | s | l | d | attrs]; try discriminate.
  rewrite serialize_field_dict.
  rewrite normalizable_dict in Hn.
  destruct (probe_keys value_keys d) as [w|]; [discriminate|].
  destruct (dict_get "valueObject" d) as [obj|] eqn:Eobj.
  - destruct obj as [| | | | | | members |]; eauto.
    apply forallb_false_Exists in Hn.
    destruct (mapM_raises
                (fun kv : string * pyval =>
                   let (k, v) := kv in
                   v' <- serialize_field v ;; Ok (k, v'))
                members) as [e He].
    { apply Exists_exists in Hn. destruct Hn as ([k w] & Hin & Hw).
      apply Exists_exists. exists (k, w). split; [exact Hin|].
      destruct (IH w) as [e He]; [|exact Hw|].
      - apply dict_get_In in Eobj.
        pose proof (pysize_member _ _ _ Hin).
        pose proof (pysize_member _ _ _ Eobj). lia.
      - exists e. now rewrite He. }
    rewrite He. exists e. reflexivity.
  - destruct (dict_get "valueArray" d) as [arr|] eqn:Earr; [|discriminate].
    destruct arr as [| | | | | items | |]; try discriminate; eauto.
    apply forallb_false_Exists in Hn.
    destruct (mapM_raises serialize_field items) as [e He].
    { apply Exists_exists in Hn. destruct Hn as (x & Hin & Hx).
      apply Exists_exists. exists x. split; [exact Hin|].
      apply IH; [|exact Hx].
      apply dict_get_In in Earr.
      pose proof (pysize_item _ _ Hin).
      pose proof (pysize_member _ _ _ Earr). lia. }
    rewrite He. exists e. reflexivity.
Qed.

(** X1.  The normaliser raises nothing but [AttributeError] (an object
    value without [items]) and [TypeError] (an array value that does not
    iterate); in particular no [KeyError]: every subscript is guarded by a
    membership test. *)
Theorem serialize_field_raises_only (field : pyval) (e : exn) :
  serialize_field field = Raise e -> e = AttributeError \/ e = TypeError.
Proof. exact (serialize_field_Raise_class field e). Qed.

Lemma serialize_field_raises_only_witness :
  AttributeError = AttributeError \/ AttributeError = TypeError.
Proof.
  apply (serialize_field_raises_only
           (PDict [("valueArray",
                    PList [PDict [("valueString", PStr "ok")];
                           PDict [("valueObject", PInt 3)]])])).
  reflexivity.
Defined.

(** X2.  The normaliser returns a value exactly on the normalisable
    fields: those in which every object value the traversal reaches is a
    mapping and every array value it reaches is a list, a string or a
    mapping.  On any other field it raises. *)
Theorem serialize_field_returns_iff (field : pyval) :
  (exists v, serialize_field field = Ok v) <-> normalizable field = true.
Proof.
  split.
  - intros [v Hv]. destruct (normalizable field) eqn:E; [reflexivity|].
    apply serialize_field_not_normalizable in E as [e He]. congruence.
  - apply serialize_field_normalizable.
Qed.

Lemma serialize_field_returns_iff_witness :
  (exists v,
     serialize_field
       (PDict [("valueObject",
                PDict [("Tags", PDict [("valueArray", PStr "ab")]);
                       ("Total", PDict [("valueNumber", PInt 3)])])])
     = Ok v)
  /\ normalizable (PDict [("valueObject", PList [])]) = false.
Proof.
  split.
  - apply (proj2 (serialize_field_returns_iff _)). reflexivity.
  - destruct (normalizable (PDict [("valueObject", PList [])])) eqn:E;
      [|reflexivity].
    apply (proj2 (serialize_field_returns_iff _)) in E.
    destruct E as [v Hv]. discriminate Hv.
Defined.

Lemma probe_attrs_first before attr after attrs :
  (forall a, In a before -> getattr a attrs = ANone) ->
  getattr attr attrs <> ANone ->
  probe_attrs (before ++ attr :: after)%list attrs
  = attr_result (getattr attr attrs).
Proof.
  intros Hbefore Hattr. induction before as [|a before IH]; simpl.
  - destruct (getattr attr attrs); try reflexivity. now destruct Hattr.
  - rewrite (Hbefore a) by now left.
    apply IH. intros a' Ha'. apply Hbefore. now right.
Qed.

(** X3.  On a typed field object the attributes [value_string],
    [value_number], [value_date], [value] are read in this order and the
    first one that is not [None] decides: a [str], [int], [float] or [bool]
    is returned as it is, anything else as its [str()] text.  An attribute
    that is present with the value [None] is passed over. *)
Theorem serialize_field_typed_object
  (attrs : list (string * attrval)) (before after : list string)
  (attr : string) :
  value_attrs = (before ++ attr :: after)%list ->
  (forall a, In a before -> getattr a attrs = ANone) ->
  getattr attr attrs <> ANone ->
  serialize_field (PObj attrs) = Ok (attr_result (getattr attr attrs)).
Proof.
  intros Hsplit Hbefore Hattr. cbn [serialize_field].
  rewrite Hsplit. f_equal. now apply probe_attrs_first.
Qed.

Lemma serialize_field_typed_object_witness :
  serialize_field
    (PObj [("value", AInt 5);
           ("value_number", ANone);
           ("value_date", AOther "2024-05-01")])
  = Ok (PStr "2024-05-01").
Proof.
  apply (serialize_field_typed_object
           [("value", AInt 5);
            ("value_number", ANone);
            ("value_date", AOther "2024-05-01")]
           ["value_string"; "value_number"] ["value"] "value_date").
  - reflexivity.
  - intros a [<-|[<-|[]]]; reflexivity.
  - discriminate.
Defined.

(** ** Further properties of [analyze_invoice] *)

Lemma dict_get_set_same key v d : dict_get key (dict_set key v d) = Some v.
Proof.
  induction d as [|[k w] d IH]; simpl.
  - now rewrite String.eqb_refl.
  - destruct (String.eqb k key) eqn:E; simpl; rewrite E; [reflexivity|exact IH].
Qed.

Lemma dict_get_set_other key name v d :
  key <> name -> dict_get name (dict_set key v d) = dict_get name d.
Proof.
  intros Hne. induction d as [|[k w] d IH]; simpl.
  - apply String.eqb_neq in Hne. now rewrite Hne.
  - destruct (String.eqb k key) eqn:E; simpl.
    + apply String.eqb_eq in E. subst k.
      apply String.eqb_neq in Hne. now rewrite Hne.
    + destruct (String.eqb k name); [reflexivity|exact IH].
Qed.

Lemma dict_get_keys key d : dict_get key d <> None <-> In key (map fst d).
Proof.
  induction d as [|[k w] d IH]; simpl; [tauto|].
  destruct (String.eqb k key) eqn:E.
  - apply String.eqb_eq in E. split; [now left | discriminate].
  - apply String.eqb_neq in E. rewrite IH. tauto.
Qed.

Lemma dict_set_keys key v d :
  map fst (dict_set key v d)
  = if dict_has key d then map fst d else (map fst d ++ [key])%list.
Proof.
  unfold dict_has. induction d as [|[k w] d IH]; simpl; [reflexivity|].
  destruct (String.eqb k key) eqn:E; simpl; [reflexivity|].
  rewrite IH. now destruct (dict_get key d).
Qed.

Lemma dict_set_NoDup key v d :
  NoDup (map fst d) -> NoDup (map fst (dict_set key v d)).
Proof.
  intros Hd. rewrite dict_set_keys. unfold dict_has.
  destruct (dict_get key d) eqn:E; [exact Hd|].
  apply NoDup_app; [exact Hd | repeat constructor; tauto |].
  intros k Hk [<-|[]]. apply dict_get_keys in Hk. congruence.
Qed.

Lemma last_value_keys name fields :
  last_value name fields <> None <-> In name (map fst fields).
Proof.
  induction fields as [|[k v] fields IH]; simpl; [tauto|].
  destruct (last_value name fields) eqn:E.
  - split; [|discriminate]. intros _. right. apply IH. discriminate.
  - destruct (String.eqb k name) eqn:Ek.
    + apply String.eqb_eq in Ek. split; [now left | discriminate].
    + apply String.eqb_neq in Ek. split; [congruence|].
      intros [H|H]; [congruence|]. apply IH in H. congruence.
Qed.

Lemma extract_fields_app fields1 fields2 acc :
  extract_fields (fields1 ++ fields2)%list acc
  = (acc' <- extract_fields fields1 acc ;; extract_fields fields2 acc').
Proof.
  revert acc. induction fields1 as [|[k v] fields1 IH]; intros acc; simpl.
  - reflexivity.
  - destruct (serialize_field v) as [v'|e]; simpl; [apply IH|reflexivity].
Qed.

(** The two nested loops are one loop over the fields of all blocks. *)
Lemma extract_contents_all_fields contents acc :
  extract_contents contents acc = extract_fields (all_fields contents) acc.
Proof.
  revert acc. induction contents as [|[fields|] contents IH]; intros acc.
  - reflexivity.
  - cbn [extract_contents all_fields flat_map].
    rewrite extract_fields_app.
    destruct (extract_fields fields acc) as [acc'|e]; simpl;
      [apply IH|reflexivity].
  - cbn [extract_contents all_fields flat_map]. apply IH.
Qed.

Lemma extract_fields_lookup fields : forall acc data name,
  extract_fields fields acc = Ok data ->
  match last_value name fields with
  | Some v => exists v', serialize_field v = Ok v' /\
                         dict_get name data = Some v'
  | None => dict_get name data = dict_get name acc
  end.
Proof.
  induction fields as [|[k v] fields IH]; intros acc data name H.
  - injection H as <-. reflexivity.
  - cbn [extract_fields] in H.
    apply bind_Ok_inv in H as (v1 & Hv1 & H).
    specialize (IH _ _ name H). cbn [last_value].
    destruct (last_value name fields) as [w|]; [exact IH|].
    destruct (String.eqb k name) eqn:Ek.
    + apply String.eqb_eq in Ek. subst k.
      exists v1. split; [exact Hv1|].
      now rewrite IH, dict_get_set_same.
    + apply String.eqb_neq in Ek.
      now rewrite IH, dict_get_set_other.
Qed.

Lemma extract_fields_NoDup fields : forall acc data,
  extract_fields fields acc = Ok data ->
  NoDup (map fst acc) -> NoDup (map fst data).
Proof.
  induction fields as [|[k v] fields IH]; intros acc data H Hacc.
  - injection H as <-. exact Hacc.
  - cbn [extract_fields] in H.
    apply bind_Ok_inv in H as (v1 & _ & H).
    apply (IH _ _ H). now apply dict_set_NoDup.
Qed.

Lemma extract_fields_Ok fields : forall acc,
  Forall (fun kv => exists v', serialize_field (snd kv) = Ok v') fields ->
  exists data, extract_fields fields acc = Ok data.
Proof.
  induction fields as [|[k v] fields IH]; intros acc H.
  - now exists acc.
  - inversion H as [|? ? [v' Hv'] Hrest]; subst. simpl in Hv'.
    cbn [extract_fields]. rewrite Hv'. cbn [bind]. now apply IH.
Qed.

(** X4.  The merge of the content blocks is last-write-wins: in the
    extracted data a name is bound to the normalised value of the last field
    of that name, over all blocks in order, and a name that no block has is
    not bound. *)
Theorem extract_contents_last_write_wins
  (contents : list (option dict)) (data : dict) (name : string) :
  extract_contents contents [] = Ok data ->
  match last_value name (all_fields contents) with
  | Some v => exists v', serialize_field v = Ok v' /\
                         dict_get name data = Some v'
  | None => dict_get name data = None
  end.
Proof.
  rewrite extract_contents_all_fields. intros H.
  exact (extract_fields_lookup _ _ _ name H).
Qed.

Lemma extract_contents_last_write_wins_witness :
  exists v',
    serialize_field (PDict [("valueString", PStr "second")]) = Ok v'
    /\ dict_get "CustomerName"
         [("CustomerName", PStr "second"); ("Total", PInt 3)] = Some v'.
Proof.
  apply (extract_contents_last_write_wins
           [Some [("CustomerName", PDict [("valueString", PStr "first")]);
                  ("Total", PDict [("valueNumber", PInt 3)])];
            None;
            Some [("CustomerName", PDict [("valueString", PStr "second")])]]
           [("CustomerName", PStr "second"); ("Total", PInt 3)]
           "CustomerName").
  reflexivity.
Defined.

(** X5.  The extracted data is a proper dict however the blocks repeat
    names: its keys are distinct, and they are exactly the field names that
    occur in some block. *)
Theorem extract_contents_keys (contents : list (option dict)) (data : dict) :
  extract_contents contents [] = Ok data ->
  NoDup (map fst data)
  /\ forall name, In name (map fst data)
                  <-> In name (map fst (all_fields contents)).
Proof.
  intros H. split.
  - rewrite extract_contents_all_fields in H.
    apply (extract_fields_NoDup _ _ _ H). constructor.
  - intros name.
    pose proof (extract_contents_all_fields contents []) as E.
    rewrite H in E. symmetry in E.
    pose proof (extract_fields_lookup _ _ _ name E) as L.
    rewrite <- dict_get_keys, <- last_value_keys.
    destruct (last_value name (all_fields contents)) as [v|].
    + destruct L as (v' & _ & ->). split; discriminate.
    + rewrite L. simpl. tauto.
Qed.

Lemma extract_contents_keys_witness :
  NoDup (map fst [("A", PStr "x"); ("B", PNone)])
  /\ forall name,
       In name (map fst [("A", PStr "x"); ("B", PNone)])
       <-> In name
             (map fst
                (all_fields
                   [Some [("A", PDict [("valueString", PStr "y")]);
                          ("B", PNone)];
                    Some [("A", PDict [("valueString", PStr "x")])]])).
Proof.
  apply (extract_contents_keys
           [Some [("A", PDict [("valueString", PStr "y")]); ("B", PNone)];
            Some [("A", PDict [("valueString", PStr "x")])]]).
  reflexivity.
Defined.

Lemma extract_fields_first_failure before k v after : forall acc e,
  Forall (fun kv => exists v', serialize_field (snd kv) = Ok v') before ->
  serialize_field v = Raise e ->
  extract_fields (before ++ (k, v) :: after)%list acc = Raise e.
Proof.
  intros acc e Hbefore Hv. rewrite extract_fields_app.
  destruct (extract_fields_Ok before acc Hbefore) as [acc' ->].
  cbn [bind extract_fields]. now rewrite Hv.
Qed.

Lemma json_dumps_Raise_class (v : pyval) (e : exn) :
  json_dumps v = Raise e -> e = TypeError \/ e = ValueError.
Proof.
  induction v as [v IH] using pyval_size_ind.
  intros H.
  destruct v as [| b | z | x | s | l | d | attrs]; try discriminate.
  - cbn [json_dumps] in H.
    destruct (float_is_finite x); [discriminate | injection H as <-; auto].
  - cbn [json_dumps] in H.
    apply bind_Raise_inv in H as [H|(? & _ & H)]; [|discriminate].
    apply mapM_Raise_inv in H. apply Exists_exists in H.
    destruct H as (x & Hin & Hx).
    apply (IH x); [|exact Hx]. now apply pysize_item.
  - cbn [json_dumps] in H.
    apply bind_Raise_inv in H as [H|(? & _ & H)]; [|discriminate].
    apply mapM_Raise_inv in H. apply Exists_exists in H.
    destruct H as ([k w] & Hin & Hw).
    apply (IH w); [|exact Hw]. now apply (pysize_member k).
  - injection H as <-. auto.
Qed.

(** The response content of [analyze_invoice] can be encoded exactly when
    its [data] and [raw_result] values can. *)
Lemma JSONResponse_content (data raw : pyval) :
  let content := PDict [("status", PStr "success");
                        ("data", data);
                        ("raw_result", raw)] in
  (json_encodable data = true -> json_encodable raw = true ->
   JSONResponse content = Ok content)
  /\ (json_encodable data = false \/ json_encodable raw = false ->
      exists e, JSONResponse content = Raise e
                /\ (e = TypeError \/ e = ValueError
                    \/ e = UnicodeEncodeError)).
Proof.
  unfold json_encodable, JSONResponse.
  cbn [json_dumps mapM bind snd utf8_encodable forallb fst].
  change (has_surrogate "status") with false.
  change (has_surrogate "data") with false.
  change (has_surrogate "raw_result") with false.
  change (has_surrogate "success") with false.
  cbn [negb andb].
  pose proof (json_dumps_Raise_class data) as Hd.
  pose proof (json_dumps_Raise_class raw) as Hr.
  destruct (json_dumps data) as [[]|e1]; cbn [bind].
  - destruct (json_dumps raw) as [[]|e2]; cbn [bind].
    + destruct (utf8_encodable data), (utf8_encodable raw); cbn [andb];
        split; try reflexivity; try discriminate;
        try (intros [H|H]; discriminate H);
        intros _; exists UnicodeEncodeError; auto.
    + split; [destruct (utf8_encodable data); discriminate|].
      intros _. exists e2. split; [reflexivity|].
      destruct (Hr e2 eq_refl); auto.
  - split; [discriminate|].
    intros _. exists e1. split; [reflexivity|].
    destruct (Hd e1 eq_refl); auto.
Qed.

(** X6.  When every field of every block is normalisable the extraction
    loop completes, and the encoding of the response decides the outcome:
    when the extracted data and [raw_result] can be JSON-encoded the request
    succeeds with the content [status] (the value ["success"]), [data] and
    [raw_result]; when one of them cannot, the request fails with status 500
    and the detail prefix ["Server Error: "]. *)
Theorem analyze_invoice_succeeds
  (contents : list (option dict)) (raw : pyval) :
  Forall (fun kv => normalizable (snd kv) = true) (all_fields contents) ->
  exists data,
    extract_contents contents [] = Ok data
    /\ (json_encodable (PDict data) = true -> json_encodable raw = true ->
        analyze_invoice (Ok contents) raw
        = inr (PDict [("status", PStr "success");
                      ("data", PDict data);
                      ("raw_result", raw)]))
    /\ (json_encodable (PDict data) = false \/ json_encodable raw = false ->
        exists h,
          analyze_invoice (Ok contents) raw = inl h
          /\ status_code h = Some 500%Z
          /\ detail_prefix h = "Server Error: ").
Proof.
  intros H.
  destruct (extract_fields_Ok (all_fields contents) []) as [data Hdata].
  { eapply Forall_impl; [|exact H].
    intros kv Hkv. now apply serialize_field_normalizable. }
  exists data. unfold analyze_invoice. cbn [bind].
  rewrite extract_contents_all_fields, Hdata. cbn [bind].
  destruct (JSONResponse_content (PDict data) raw) as [Hok Hbad].
  split; [reflexivity|]. split.
  - intros Hd Hr. now rewrite (Hok Hd Hr).
  - intros Hno. destruct (Hbad Hno) as (e & -> & [-> | [-> | ->]]);
      eexists; repeat split.
Qed.

Lemma analyze_invoice_succeeds_witness :
  exists data,
    extract_contents
      [Some [("Total", PDict [("valueObject",
                               PDict [("Amount",
                                       PDict [("valueNumber", PInt 9)])])])];
       None] [] = Ok data
    /\ (json_encodable (PDict data) = true ->
        json_encodable (PStr "raw") = true ->
        analyze_invoice
          (Ok [Some [("Total",
                      PDict [("valueObject",
                              PDict [("Amount",
                                      PDict [("valueNumber", PInt 9)])])])];
               None])
          (PStr "raw")
        = inr (PDict [("status", PStr "success");
                      ("data", PDict data);
                      ("raw_result", PStr "raw")]))
    /\ (json_encodable (PDict data) = false
        \/ json_encodable (PStr "raw") = false ->
        exists h,
          analyze_invoice
            (Ok [Some [("Total",
                        PDict [("valueObject",
                                PDict [("Amount",
                                        PDict [("valueNumber", PInt 9)])])])];
                 None])
            (PStr "raw") = inl h
          /\ status_code h = Some 500%Z
          /\ detail_prefix h = "Server Error: ").
Proof.
  apply analyze_invoice_succeeds.
  repeat constructor.
Defined.

(** A stored object that is handed back as it is cannot be encoded: the
    request fails although every field was normalised. *)
Example analyze_invoice_encoding_fails :
  analyze_invoice
    (Ok [Some [("Total", PDict [("valueString", PObj [("value", AInt 1)])])]])
    PNone
  = inl {| status_code := Some 500%Z;
           detail_prefix := "Server Error: ";
           cause := TypeError |}.
Proof. reflexivity. Qed.

(** X7.  The first field, over all blocks in order, on which the normaliser
    raises fails the whole request: no partial data is returned, and the
    error has status 500, the detail prefix ["Server Error: "] and, as its
    cause, the exception the normaliser raised on that field. *)
Theorem analyze_invoice_field_failure
  (contents : list (option dict)) (raw : pyval)
  (before after : list (string * pyval)) (k : string) (v : pyval) (e : exn) :
  all_fields contents = (before ++ (k, v) :: after)%list ->
  Forall (fun kv => exists v', serialize_field (snd kv) = Ok v') before ->
  serialize_field v = Raise e ->
  analyze_invoice (Ok contents) raw
  = inl {| status_code := Some 500%Z;
           detail_prefix := "Server Error: ";
           cause := e |}.
Proof.
  intros Hsplit Hbefore Hv.
  unfold analyze_invoice. cbn [bind].
  rewrite extract_contents_all_fields, Hsplit.
  rewrite (extract_fields_first_failure _ _ _ _ _ _ Hbefore Hv). cbn [bind].
  destruct (serialize_field_Raise_class _ _ Hv) as [-> | ->]; reflexivity.
Qed.

Lemma analyze_invoice_field_failure_witness :
  analyze_invoice
    (Ok [Some [("CustomerName", PDict [("valueString", PStr "x")]);
               ("Total", PDict [("valueObject", PNone)])];
         Some [("Items", PDict [("valueArray", PNone)])]])
    PNone
  = inl {| status_code := Some 500%Z;
           detail_prefix := "Server Error: ";
           cause := AttributeError |}.
Proof.
  apply (analyze_invoice_field_failure _ _
           [("CustomerName", PDict [("valueString", PStr "x")])]
           [("Items", PDict [("valueArray", PNone)])]
           "Total" (PDict [("valueObject", PNone)])).
  - reflexivity.
  - repeat constructor. simpl. eexists. reflexivity.
  - reflexivity.
Defined.

(** X8.  A successful response is an envelope for [generate_pdf]: the
    unwrap step of [generate_pdf] takes it to the extracted data. *)
Theorem analyze_invoice_then_unwrap
  (outcome : result (list (option dict))) (raw response : pyval) :
  analyze_invoice outcome raw = inr response ->
  exists resp data,
    response = PDict resp
    /\ is_envelope resp = true
    /\ dict_get "data" resp = Some (PDict data)
    /\ unwrap response = Ok (PDict data).
Proof.
  unfold analyze_invoice.
  destruct outcome as [contents|e]; cbn [bind];
    [|destruct e; discriminate].
  destruct (extract_contents contents []) as [data|e]; cbn [bind];
    [|destruct e; discriminate].
  destruct (JSONResponse
              (PDict [("status", PStr "success");
                      ("data", PDict data);
                      ("raw_result", raw)])) as [body|e] eqn:E;
    [|destruct e; discriminate].
  intros [= <-]. unfold JSONResponse in E.
  apply bind_Ok_inv in E as (_ & _ & E).
  destruct (utf8_encodable _) in E; [|discriminate].
  injection E as <-.
  eexists. exists data. repeat split.
Qed.

Lemma analyze_invoice_then_unwrap_witness :
  exists resp data,
    PDict [("status", PStr "success");
           ("data", PDict [("InvoiceId", PStr "INV-42")]);
           ("raw_result", PNone)] = PDict resp
    /\ is_envelope resp = true
    /\ dict_get "data" resp = Some (PDict data)
    /\ unwrap (PDict [("status", PStr "success");
                      ("data", PDict [("InvoiceId", PStr "INV-42")]);
                      ("raw_result", PNone)]) = Ok (PDict data).
Proof.
  apply (analyze_invoice_then_unwrap
           (Ok [Some [("InvoiceId", PDict [("valueString", PStr "INV-42")])]])
           PNone).
  reflexivity.
Defined.

Lemma generate_pdf_envelope_witness :
  generate_pdf (fun _ => "") (Ok (fun _ _ => Ok "<html/>")) (fun _ => Ok [])
    [("status", PStr "success");
     ("data", PDict [("InvoiceId", PStr "INV-42")]);
     ("raw_result", PNone)]
  = generate_pdf (fun _ => "") (Ok (fun _ _ => Ok "<html/>")) (fun _ => Ok [])
      [("InvoiceId", PStr "INV-42")].
Proof.
  apply generate_pdf_envelope; reflexivity.
Defined.

(** ** Further properties of [generate_pdf] *)

Section RenderingOutcomes.

Variable py_repr : pyval -> string.
Variable get_template : result (pyval -> dict -> result string).
Variable html_to_pdf : string -> result (list Byte.byte).

(** X10.  There is no partial success: a response is returned only when the
    effective document is a mapping, the template was found and rendered
    with the derived currency, and the browser produced the PDF; the
    response then carries these bytes, the media type [application/pdf] and
    the file name derived from the effective document. *)
Theorem generate_pdf_no_partial_success
  (invoice_data : dict) (response : Response) :
  generate_pdf py_repr get_template html_to_pdf invoice_data = inr response ->
  exists doc currency template rendered_html,
    unwrap (PDict invoice_data) = Ok (PDict doc)
    /\ dict_has "currency" doc = false
    /\ derive_currency (PDict doc) = Ok currency
    /\ get_template = Ok template
    /\ template currency doc = Ok rendered_html
    /\ html_to_pdf rendered_html = Ok (content response)
    /\ media_type response = "application/pdf"
    /\ derive_filename py_repr (PDict doc) = Ok (filename response).
Proof.
  unfold generate_pdf.
  destruct (unwrap (PDict invoice_data)) as [doc|e]; [|discriminate].
  cbn [bind].
  destruct (derive_currency doc) as [currency|e] eqn:Ec; [|discriminate].
  cbn [bind].
  destruct get_template as [template|e] eqn:Et; [|discriminate].
  cbn [bind].
  destruct doc as [| | | | | | doc |]; try discriminate.
  unfold render_html.
  destruct (dict_has "currency" doc) eqn:Ek; [discriminate|].
  destruct (template currency doc) as [html|e] eqn:Eh; [|discriminate].
  cbn [bind].
  destruct (html_to_pdf html) as [pdf|e] eqn:Ep; [|discriminate].
  cbn [bind].
  destruct (derive_filename py_repr (PDict doc)) as [name|e] eqn:En;
    [|discriminate].
  cbn [bind]. unfold attachment_response.
  destruct (latin1_encodable name); [|discriminate].
  intros [= <-]. simpl.
  exists doc, currency, template, html. auto 12.
Qed.

(** X11.  On an effective document that is a mapping without a [currency]
    field, when the template is found and renders and the browser produces
    the PDF, the file name decides the outcome: the currency and file name
    steps raise on no mapping, and the response is returned when every
    character of the file name is at most U+00FF; otherwise building the
    response raises and the request fails with status 500. *)
Theorem generate_pdf_succeeds
  (invoice_data doc : dict) (template : pyval -> dict -> result string)
  (currency : pyval) (rendered_html : string) (pdf_bytes : list Byte.byte) :
  unwrap (PDict invoice_data) = Ok (PDict doc) ->
  dict_has "currency" doc = false ->
  derive_currency (PDict doc) = Ok currency ->
  get_template = Ok template ->
  template currency doc = Ok rendered_html ->
  html_to_pdf rendered_html = Ok pdf_bytes ->
  exists name,
    derive_filename py_repr (PDict doc) = Ok name
    /\ (latin1_encodable name = true ->
        generate_pdf py_repr get_template html_to_pdf invoice_data
        = inr {| content := pdf_bytes;
                 media_type := "application/pdf";
                 filename := name |})
    /\ (latin1_encodable name = false ->
        generate_pdf py_repr get_template html_to_pdf invoice_data
        = inl {| status_code := Some 500%Z;
                 detail_prefix := "PDF generation failed: ";
                 cause := UnicodeEncodeError |}).
Proof.
  intros Hdoc Hcur Hc Ht Hh Hp.
  eexists. split; [reflexivity|].
  unfold generate_pdf. rewrite Hdoc. cbn [bind]. rewrite Hc. cbn [bind].
  rewrite Ht. cbn [bind]. unfold render_html. rewrite Hcur, Hh.
  cbn [bind]. rewrite Hp. cbn [bind derive_filename py_get].
  unfold attachment_response.
  split; intros ->; reflexivity.
Qed.

(** X12.  A document that has a field named [currency] is never rendered:
    the keyword is given twice in the call of [template.render], and the
    request fails with status 500; when the template was found the cause is
    this [TypeError]. *)
Theorem generate_pdf_currency_clash (invoice_data doc : dict) :
  unwrap (PDict invoice_data) = Ok (PDict doc) ->
  dict_has "currency" doc = true ->
  exists h,
    generate_pdf py_repr get_template html_to_pdf invoice_data = inl h
    /\ status_code h = Some 500%Z
    /\ detail_prefix h = "PDF generation failed: "
    /\ (forall template, get_template = Ok template -> cause h = TypeError).
Proof.
  intros Hdoc Hcur. unfold generate_pdf. rewrite Hdoc. cbn [bind].
  assert (Hc : exists currency, derive_currency (PDict doc) = Ok currency).
  { unfold derive_currency. simpl.
    destruct (dict_get "TotalAmount" doc) as [[]|]; simpl; eauto. }
  destruct Hc as [currency ->]. cbn [bind].
  destruct get_template as [template|e]; cbn [bind].
  - unfold render_html. rewrite Hcur. cbn [bind].
    eexists. repeat split.
  - eexists. repeat split. intros template H. discriminate H.
Qed.

(** X13.  An envelope whose [data] is not a mapping is rejected before any
    collaborator is called: the currency step raises [AttributeError] on
    it, and the request fails with status 500. *)
Theorem generate_pdf_data_not_mapping (invoice_data : dict) (v : pyval) :
  is_envelope invoice_data = true ->
  dict_get "data" invoice_data = Some v ->
  (forall m, v <> PDict m) ->
  generate_pdf py_repr get_template html_to_pdf invoice_data
  = inl {| status_code := Some 500%Z;
           detail_prefix := "PDF generation failed: ";
           cause := AttributeError |}.
Proof.
  intros Henv Hdata Hv. unfold generate_pdf.
  rewrite unwrap_dict, Henv, Hdata. cbn [bind].
  destruct v as [| | | | | | m |]; try reflexivity.
  now destruct (Hv m).
Qed.

(** X15.  The client and the service agree on the file name: when the
    client sends an envelope (the full [/analyze-invoice] response) and
    [generate_pdf] answers with a response, the name the client saves the
    PDF under is the name in that response. *)
Theorem client_output_file_agrees (analysis : dict) (response : Response) :
  is_envelope analysis = true ->
  generate_pdf py_repr get_template html_to_pdf analysis = inr response ->
  client_output_file py_repr (PDict analysis) = Ok (filename response).
Proof.
  intros Henv Hgen.
  apply generate_pdf_response in Hgen
    as (doc & currency & template & html & Hdoc & _ & _ & _ & _ & Hname).
  rewrite unwrap_dict, Henv in Hdoc.
  unfold client_output_file. cbn [py_get bind].
  destruct (dict_get "data" analysis) as [v|]; [|discriminate].
  injection Hdoc as ->. exact Hname.
Qed.

End RenderingOutcomes.

Lemma generate_pdf_no_partial_success_witness :
  exists doc currency template rendered_html,
    unwrap (PDict [("InvoiceId", PInt 7);
                   ("TotalAmount", PDict [("CurrencyCode", PStr "EUR")])])
    = Ok (PDict doc)
    /\ dict_has "currency" doc = false
    /\ derive_currency (PDict doc) = Ok currency
    /\ Ok (fun (c : pyval) (_ : dict) => Ok (py_str (fun _ => "") c))
       = Ok template
    /\ template currency doc = Ok rendered_html
    /\ Ok (map byte_of_ascii (list_ascii_of_string rendered_html))
       = Ok [Byte.x45; Byte.x55; Byte.x52]
    /\ "application/pdf" = "application/pdf"
    /\ derive_filename (fun _ => "") (PDict doc) = Ok "invoice_7.pdf".
Proof.
  apply (generate_pdf_no_partial_success
           (fun _ => "")
           (Ok (fun (c : pyval) (_ : dict) => Ok (py_str (fun _ => "") c)))
           (fun html => Ok (map byte_of_ascii (list_ascii_of_string html)))
           [("InvoiceId", PInt 7);
            ("TotalAmount", PDict [("CurrencyCode", PStr "EUR")])]
           {| content := [Byte.x45; Byte.x55; Byte.x52];
              media_type := "application/pdf";
              filename := "invoice_7.pdf" |}).
  reflexivity.
Defined.

Lemma generate_pdf_succeeds_witness :
  exists name,
    derive_filename (fun _ => "") (PDict [("InvoiceId", PStr "€42")])
    = Ok name
    /\ (latin1_encodable name = true ->
        generate_pdf (fun _ => "") (Ok (fun _ _ => Ok "<html/>"))
          (fun _ => Ok [Byte.x25])
          [("data", PDict [("InvoiceId", PStr "€42")]); ("status", PNone)]
        = inr {| content := [Byte.x25];
                 media_type := "application/pdf";
                 filename := name |})
    /\ (latin1_encodable name = false ->
        generate_pdf (fun _ => "") (Ok (fun _ _ => Ok "<html/>"))
          (fun _ => Ok [Byte.x25])
          [("data", PDict [("InvoiceId", PStr "€42")]); ("status", PNone)]
        = inl {| status_code := Some 500%Z;
                 detail_prefix := "PDF generation failed: ";
                 cause := UnicodeEncodeError |}).
Proof.
  apply (generate_pdf_succeeds (fun _ => "") (Ok (fun _ _ => Ok "<html/>"))
           (fun _ => Ok [Byte.x25])
           [("data", PDict [("InvoiceId", PStr "€42")]); ("status", PNone)]
           [("InvoiceId", PStr "€42")] (fun _ _ => Ok "<html/>")
           (PStr "") "<html/>" [Byte.x25]); reflexivity.
Defined.

(** A file name with a character above U+00FF: the response cannot be
    built. *)
Example generate_pdf_euro_identifier :
  generate_pdf (fun _ => "") (Ok (fun _ _ => Ok "<html/>"))
    (fun _ => Ok [Byte.x25]) [("InvoiceId", PStr "€42")]
  = inl {| status_code := Some 500%Z;
           detail_prefix := "PDF generation failed: ";
           cause := UnicodeEncodeError |}.
Proof. reflexivity. Qed.

(** A character up to U+00FF passes. *)
Example generate_pdf_latin1_identifier :
  generate_pdf (fun _ => "") (Ok (fun _ _ => Ok "<html/>"))
    (fun _ => Ok [Byte.x25]) [("InvoiceId", PStr "é42")]
  = inr {| content := [Byte.x25];
           media_type := "application/pdf";
           filename := "invoice_é42.pdf" |}.
Proof. reflexivity. Qed.

Lemma generate_pdf_currency_clash_witness :
  exists h,
    generate_pdf (fun _ => "") (Ok (fun _ _ => Ok "<html/>")) (fun _ => Ok [])
      [("InvoiceId", PStr "INV-42"); ("currency", PStr "USD")] = inl h
    /\ status_code h = Some 500%Z
    /\ detail_prefix h = "PDF generation failed: "
    /\ (forall template,
          Ok (fun (_ : pyval) (_ : dict) => Ok "<html/>") = Ok template ->
          cause h = TypeError).
Proof.
  apply (generate_pdf_currency_clash (fun _ => "")
           (Ok (fun _ _ => Ok "<html/>")) (fun _ => Ok [])
           [("InvoiceId", PStr "INV-42"); ("currency", PStr "USD")]
           [("InvoiceId", PStr "INV-42"); ("currency", PStr "USD")]);
    reflexivity.
Defined.

Lemma generate_pdf_data_not_mapping_witness :
  generate_pdf (fun _ => "") (Ok (fun _ _ => Ok "<html/>")) (fun _ => Ok [])
    [("status", PStr "success"); ("data", PList [PInt 1])]
  = inl {| status_code := Some 500%Z;
           detail_prefix := "PDF generation failed: ";
           cause := AttributeError |}.
Proof.
  apply (generate_pdf_data_not_mapping (fun _ => "")
           (Ok (fun _ _ => Ok "<html/>")) (fun _ => Ok [])
           [("status", PStr "success"); ("data", PList [PInt 1])]
           (PList [PInt 1])).
  - reflexivity.
  - reflexivity.
  - intros m. discriminate.
Defined.

Lemma client_output_file_agrees_witness :
  client_output_file (fun _ => "")
    (PDict [("status", PStr "success");
            ("data", PDict [("InvoiceId", PStr "INV-42")]);
            ("raw_result", PNone)])
  = Ok "invoice_INV-42.pdf".
Proof.
  apply (client_output_file_agrees (fun _ => "")
           (Ok (fun _ _ => Ok "<html/>")) (fun _ => Ok [])
           [("status", PStr "success");
            ("data", PDict [("InvoiceId", PStr "INV-42")]);
            ("raw_result", PNone)]
           {| content := [];
              media_type := "application/pdf";
              filename := "invoice_INV-42.pdf" |});
    reflexivity.
Defined.

(** ** Start-up check and API key *)

Lemma opt_string_eqb_eq (a b : option string) :
  opt_string_eqb a b = true <-> a = b.
Proof.
  destruct a as [x|], b as [y|]; simpl; try (split; congruence).
  rewrite String.eqb_eq. split; congruence.
Qed.

(** X14.  Once the start-up check has passed, the dependency lets through
    exactly the requests whose [X-API-Key] header is the configured key; a
    request without the header, or with an empty one, gets status 401. *)
Theorem verify_api_key_spec (AI_ENDPOINT AI_KEY api_key : option string) :
  check_configuration AI_ENDPOINT AI_KEY = Ok tt ->
  (verify_api_key AI_KEY api_key = None <-> api_key = AI_KEY)
  /\ verify_api_key AI_KEY None = Some (401%Z, "Unauthorized")
  /\ verify_api_key AI_KEY (Some "") = Some (401%Z, "Unauthorized").
Proof.
  unfold check_configuration, verify_api_key. intros Hconf.
  split; [|split].
  - destruct (opt_string_eqb api_key AI_KEY) eqn:E.
    + apply opt_string_eqb_eq in E. tauto.
    + split; [discriminate|]. intros H. apply opt_string_eqb_eq in H.
      congruence.
  - destruct AI_KEY as [k|]; [reflexivity|].
    destruct (falsy AI_ENDPOINT); discriminate.
  - destruct AI_KEY as [[|c k]|]; try reflexivity;
      destruct (falsy AI_ENDPOINT); discriminate.
Qed.

Lemma verify_api_key_spec_witness :
  (verify_api_key (Some "s3cret") (Some "s3cret") = None
   <-> Some "s3cret" = Some "s3cret")
  /\ verify_api_key (Some "s3cret") None = Some (401%Z, "Unauthorized")
  /\ verify_api_key (Some "s3cret") (Some "") = Some (401%Z, "Unauthorized").
Proof.
  apply (verify_api_key_spec (Some "https://example.test") (Some "s3cret")
           (Some "s3cret")).
  reflexivity.
Defined.
